(** * wattsup: serverless order-intake handlers

    A shallow embedding of the four Lambda handlers of the repository
    (authorizer, order generator, order archiver, order ingestion API)
    together with the properties stated about them.

    Python values are modelled by one tagged union [value]; a handler is a
    function in a small state-and-exception monad whose state records the
    calls made to the external collaborators (secret store, object store,
    key-value table, clock, standard output). *)

From Stdlib Require Import ZArith List String Ascii Bool Lia DecimalString.
From Stdlib Require Import Floats.SpecFloat.
Import ListNotations.

Local Open Scope string_scope.
Local Open Scope Z_scope.

(* ================================================================== *)
(** * Python values, dictionaries and exceptions                      *)
(* ================================================================== *)

Module Py.

Set Warnings "-register-all".

(** A Python [float] is an IEEE-754 double; [VDecimal s] is the object
    built by [Decimal(s)]; a [dict] keeps its keys in insertion order. *)
Inductive value : Type :=
| VNone
| VBool (b : bool)
| VInt (z : Z)
| VFloat (f : spec_float)
| VDecimal (literal : string)
| VStr (s : string)
| VList (items : list value)
| VDict (entries : list (string * value)).

Definition dict : Type := list (string * value).

(** Induction principle that reaches below lists and dictionaries. *)
Section ValueInduction.
Variable P : value -> Prop.
Hypothesis HNone : P VNone.
Hypothesis HBool : forall b, P (VBool b).
Hypothesis HInt : forall z, P (VInt z).
Hypothesis HFloat : forall f, P (VFloat f).
Hypothesis HDecimal : forall s, P (VDecimal s).
Hypothesis HStr : forall s, P (VStr s).
Hypothesis HList : forall l, Forall P l -> P (VList l).
Hypothesis HDict : forall d, Forall (fun kv => P (snd kv)) d -> P (VDict d).

Fixpoint value_nested_ind (v : value) : P v :=
  match v with
  | VNone => HNone
  | VBool b => HBool b
  | VInt z => HInt z
  | VFloat f => HFloat f
  | VDecimal s => HDecimal s
  | VStr s => HStr s
  | VList l =>
      HList l
        ((fix go (xs : list value) : Forall P xs :=
            match xs with
            | [] => Forall_nil _
            | x :: xs' => Forall_cons x (value_nested_ind x) (go xs')
            end) l)
  | VDict d =>
      HDict d
        ((fix go (xs : dict) : Forall (fun kv => P (snd kv)) xs :=
            match xs with
            | [] => Forall_nil _
            | kv :: xs' => Forall_cons kv (value_nested_ind (snd kv)) (go xs')
            end) d)
  end.
End ValueInduction.

(** ** Dictionaries *)

(** [d.get(k)] / [k in d] / [d[k] = v]. *)
Fixpoint dict_get (d : dict) (k : string) : option value :=
  match d with
  | [] => None
  | (k', v) :: rest => if String.eqb k' k then Some v else dict_get rest k
  end.

Definition dict_has (d : dict) (k : string) : bool :=
  match dict_get d k with Some _ => true | None => false end.

(** Assignment keeps the position of a key that is already present and
    appends a new key at the end, as a Python dict does. *)
Fixpoint dict_set (d : dict) (k : string) (v : value) : dict :=
  match d with
  | [] => [(k, v)]
  | (k', v') :: rest =>
      if String.eqb k' k then (k', v) :: rest else (k', v') :: dict_set rest k v
  end.

Definition dict_keys (d : dict) : list string := map fst d.

(** ** Truthiness, equality with a string, membership *)

(** [bool(v)] for the values a JSON document or a Decimal can hold.
    A Decimal literal's truthiness is not needed by any handler. *)
Definition truthy (v : value) : bool :=
  match v with
  | VNone => false
  | VBool b => b
  | VInt z => negb (Z.eqb z 0)
  | VFloat f => match f with S754_zero _ => false | _ => true end
  | VDecimal _ => true
  | VStr s => negb (String.eqb s "")
  | VList l => match l with [] => false | _ => true end
  | VDict d => match d with [] => false | _ => true end
  end.

(** [v == s] for a string literal [s]: only the same string is equal. *)
Definition eq_str (v : value) (s : string) : bool :=
  match v with
  | VStr s' => String.eqb s' s
  | _ => false
  end.

(** [needle in haystack] on strings: substring test. *)
Fixpoint str_contains (needle haystack : string) : bool :=
  if String.prefix needle haystack then true
  else match haystack with
       | EmptyString => false
       | String _ rest => str_contains needle rest
       end.

(** ** Exceptions *)

Inductive exn_class : Type :=
| Exception
| ValueError
| TypeError
| KeyError
| AttributeError
| JSONDecodeError
| InvalidTokenError
| ExpiredSignatureError
| ClientError.

(** [str(e)] is kept with the class. *)
Record exn : Type := Exn { exn_cls : exn_class; exn_msg : string }.

Definition class_eqb (a b : exn_class) : bool :=
  match a, b with
  | Exception, Exception | ValueError, ValueError | TypeError, TypeError
  | KeyError, KeyError | AttributeError, AttributeError
  | JSONDecodeError, JSONDecodeError | InvalidTokenError, InvalidTokenError
  | ExpiredSignatureError, ExpiredSignatureError | ClientError, ClientError => true
  | _, _ => false
  end.

(** Direct base class: [json.JSONDecodeError] derives from [ValueError],
    [jwt.ExpiredSignatureError] from [jwt.InvalidTokenError]; everything
    derives from [Exception]. *)
Definition base_class (c : exn_class) : option exn_class :=
  match c with
  | Exception => None
  | JSONDecodeError => Some ValueError
  | ExpiredSignatureError => Some InvalidTokenError
  | _ => Some Exception
  end.

Fixpoint subclass_upto (depth : nat) (c d : exn_class) : bool :=
  class_eqb c d ||
  match depth with
  | O => false
  | S depth' =>
      match base_class c with
      | Some b => subclass_upto depth' b d
      | None => false
      end
  end.

(** [isinstance(e, d)], which is what an [except d:] clause tests. *)
Definition isinstance (e : exn) (d : exn_class) : bool :=
  subclass_upto 3 (exn_cls e) d.

(** ** Type names, as they appear in the interpreter's messages *)
Definition type_name (v : value) : string :=
  match v with
  | VNone => "NoneType"
  | VBool _ => "bool"
  | VInt _ => "int"
  | VFloat _ => "float"
  | VDecimal _ => "decimal.Decimal"
  | VStr _ => "str"
  | VList _ => "list"
  | VDict _ => "dict"
  end.

(** ** Subscription, [.get] and [in]

    [obj[key]] for a string key. *)
Definition subscript (obj : value) (key : string) : exn + value :=
  match obj with
  | VDict d =>
      match dict_get d key with
      | Some v => inr v
      | None => inl (Exn KeyError ("'" ++ key ++ "'"))
      end
  | VStr _ =>
      inl (Exn TypeError "string indices must be integers, not 'str'")
  | VList _ =>
      inl (Exn TypeError "list indices must be integers or slices, not str")
  | _ =>
      inl (Exn TypeError
             ("'" ++ type_name obj ++ "' object is not subscriptable"))
  end.

(** [obj.get(key, default)] *)
Definition method_get (obj : value) (key : string) (default : value)
  : exn + value :=
  match obj with
  | VDict d =>
      match dict_get d key with
      | Some v => inr v
      | None => inr default
      end
  | _ =>
      inl (Exn AttributeError
             ("'" ++ type_name obj ++ "' object has no attribute 'get'"))
  end.

(** [key in container] *)
Definition contains (container : value) (key : string) : exn + bool :=
  match container with
  | VDict d => inr (dict_has d key)
  | VStr s => inr (str_contains key s)
  | VList l => inr (existsb (fun x => eq_str x key) l)
  | _ =>
      inl (Exn TypeError
             ("argument of type '" ++ type_name container
              ++ "' is not iterable"))
  end.

(** ** The state-and-exception monad of a handler

    [W] is the state of the world the handler runs in; a computation
    either returns a result or raises, and leaves a new world. *)
Definition M (W A : Type) : Type := W -> (exn + A) * W.

Definition ret {W A} (a : A) : M W A := fun w => (inr a, w).

Definition raise {W A} (e : exn) : M W A := fun w => (inl e, w).

Definition bind {W A B} (m : M W A) (k : A -> M W B) : M W B :=
  fun w =>
    match m w with
    | (inr a, w') => k a w'
    | (inl e, w') => (inl e, w')
    end.

(** [try: m  except ...: handler e]. *)
Definition try_except {W A} (m : M W A) (handler : exn -> M W A) : M W A :=
  fun w =>
    match m w with
    | (inr a, w') => (inr a, w')
    | (inl e, w') => handler e w'
    end.

(** Lift a pure fallible result. *)
Definition lift {W A} (r : exn + A) : M W A := fun w => (r, w).

Definition modify {W} (f : W -> W) : M W unit := fun w => (inr tt, f w).

Definition gets {W A} (f : W -> A) : M W A := fun w => (inr (f w), w).

End Py.

Declare Scope py_scope.
Delimit Scope py_scope with py.
Notation "x <- m ;; k" := (Py.bind m (fun x => k))
  (at level 61, m at next level, right associativity) : py_scope.
Notation "m ;;; k" := (Py.bind m (fun _ => k))
  (at level 61, right associativity) : py_scope.

(* ================================================================== *)
(** * authorizer_lambda/app.py: the token authorizer                  *)
(* ================================================================== *)

Module Authorizer.
Import Py.
Local Open Scope py_scope.

(** The collaborators: the process environment, Secrets Manager
    ([boto3.client('secretsmanager').get_secret_value(SecretId=name)])
    and PyJWT ([jwt.decode(token, key, algorithms=['HS256'])], which
    returns the claims mapping or raises). *)
Record runtime : Type := Runtime {
  environ_JWT_SECRET_NAME : option string;
  get_secret_value : string -> exn + dict;
  jwt_decode : string -> value -> exn + dict
}.

(** The module-level cache, the secrets requested so far and the lines
    printed so far. *)
Record world : Type := World {
  cached_secret : value;
  secret_requests : list string;
  stdout : list string
}.

Definition print (line : string) : M world unit :=
  fun w => (inr tt,
            World (cached_secret w) (secret_requests w) (stdout w ++ [line])).

(** [c.lower()] on one character; the handler only compares with ASCII
    letters. *)
Definition lower_char (c : ascii) : ascii :=
  let n := nat_of_ascii c in
  if (Nat.leb 65 n && Nat.leb n 90)%bool then ascii_of_nat (n + 32) else c.

Fixpoint lower (s : string) : string :=
  match s with
  | EmptyString => EmptyString
  | String c rest => String (lower_char c) (lower rest)
  end.

(** [s[n:]] *)
Fixpoint slice_from (n : nat) (s : string) : string :=
  match n, s with
  | O, _ => s
  | S n', String _ rest => slice_from n' rest
  | S _, EmptyString => EmptyString
  end.

(** [generate_policy(principal_id, effect, resource, context)];
    [context] is [VNone] when the argument is left out. *)
Definition generate_policy (principal_id : value) (effect : string)
    (resource : value) (context : value) : value :=
  let policy : dict :=
    [("principalId", principal_id);
     ("policyDocument",
      VDict [("Version", VStr "2012-10-17");
             ("Statement",
              VList [VDict [("Action", VStr "execute-api:Invoke");
                            ("Effect", VStr effect);
                            ("Resource", resource)]])])] in
  if truthy context then VDict (dict_set policy "context" context)
  else VDict policy.

Definition unauthorized : exn := Exn Exception "Unauthorized".

Section Handler.
Variable rt : runtime.

(** [get_secret_key()] *)
Definition get_secret_key : M world value :=
  fun w =>
    match cached_secret w with
    | VNone =>
        match environ_JWT_SECRET_NAME rt with
        | None | Some EmptyString =>
            (inl (Exn ValueError
                    "JWT_SECRET_NAME environment variable not set"), w)
        | Some secret_name =>
            let w1 := World (cached_secret w)
                            (secret_requests w ++ [secret_name])
                            (stdout w) in
            match get_secret_value rt secret_name with
            | inl e => (inl e, w1)
            | inr response =>
                match subscript (VDict response) "SecretString" with
                | inl e => (inl e, w1)
                | inr secret =>
                    (inr secret,
                     World secret (secret_requests w1) (stdout w1))
                end
            end
        end
    | secret => (inr secret, w)
    end.

(** [validate_token(token)] *)
Definition validate_token (token : string) : M world dict :=
  secret_key <- get_secret_key ;;
  lift (jwt_decode rt token secret_key).

(** The token left after the optional, case-insensitive [Bearer ]
    prefix: [auth_token[7:]] or [auth_token] itself. *)
Definition strip_bearer (auth_token : string) : string :=
  if String.prefix "bearer " (lower auth_token)
  then slice_from 7 auth_token
  else auth_token.

(** [claims.get('sub', claims.get('email', 'user'))] *)
Definition principal_of (claims : dict) : value :=
  match dict_get claims "sub" with
  | Some sub => sub
  | None =>
      match dict_get claims "email" with
      | Some email => email
      | None => VStr "user"
      end
  end.

(** [claims.get('email', '')] *)
Definition email_of (claims : dict) : value :=
  match dict_get claims "email" with
  | Some email => email
  | None => VStr ""
  end.

(** The [try:] block of [lambda_handler]. *)
Definition authorize (event : value) : M world value :=
  auth_token <- lift (method_get event "authorizationToken" (VStr "")) ;;
  method_arn <- lift (method_get event "methodArn" (VStr "*")) ;;
  if negb (truthy auth_token) then
    raise (Exn ValueError "No authorization token provided")
  else
    match auth_token with
    | VStr s =>
        let token := strip_bearer s in
        claims <- validate_token token ;;
        let principal_id := principal_of claims in
        let auth_context :=
          VDict [("userId", principal_id); ("email", email_of claims)] in
        ret (generate_policy principal_id "Allow" method_arn auth_context)
    | _ =>
        (* [auth_token.lower()] on a value that is not a string *)
        raise (Exn AttributeError
                 ("'" ++ type_name auth_token
                  ++ "' object has no attribute 'lower'"))
    end.

(** [lambda_handler(event, context)]: the three [except] clauses, in
    the order they are written. *)
Definition lambda_handler (event : value) : M world value :=
  try_except (authorize event)
    (fun e =>
       if isinstance e ExpiredSignatureError then
         print "Token expired" ;;;
         raise unauthorized
       else if isinstance e InvalidTokenError then
         print ("Invalid token: " ++ exn_msg e) ;;;
         raise unauthorized
       else if isinstance e Exception then
         print ("Authorization error: " ++ exn_msg e) ;;;
         raise unauthorized
       else raise e).

End Handler.

(** ** Vocabulary of the properties *)

(** The claims of the invocation's token when it verifies: the event is
    a mapping whose [authorizationToken] is a non-empty string, and
    [validate_token] returns claims for what is left of it after the
    prefix is removed. *)
Definition verified_claims (rt : runtime) (event : value) (w : world)
  : option dict :=
  match event with
  | VDict d =>
      match dict_get d "authorizationToken" with
      | Some (VStr s) =>
          if String.eqb s "" then None
          else match fst (validate_token rt (strip_bearer s) w) with
               | inr claims => Some claims
               | inl _ => None
               end
      | _ => None
      end
  | _ => None
  end.

(** No secret is cached and the name of the secret is not configured. *)
Definition missing_configuration (rt : runtime) (w : world) : bool :=
  match cached_secret w, environ_JWT_SECRET_NAME rt with
  | VNone, None => true
  | VNone, Some name => String.eqb name ""
  | _, _ => false
  end.

(** [event.get('methodArn', '*')] *)
Definition method_arn_of (event : dict) : value :=
  match dict_get event "methodArn" with
  | Some arn => arn
  | None => VStr "*"
  end.

(** The access decision document for a principal, a resource and the
    caller's e-mail. *)
Definition allow_policy (principal resource email : value) : value :=
  VDict [("principalId", principal);
         ("policyDocument",
          VDict [("Version", VStr "2012-10-17");
                 ("Statement",
                  VList [VDict [("Action", VStr "execute-api:Invoke");
                                ("Effect", VStr "Allow");
                                ("Resource", resource)]])]);
         ("context", VDict [("userId", principal); ("email", email)])].

End Authorizer.

(* ================================================================== *)
(** * lambda_a/app.py: the order generator                            *)
(* ================================================================== *)

Module LambdaA.
Import Py.

(** [random_choice k] is what the [k]-th call of
    [random.choice([True, False])] in this execution context returns. *)
Record runtime : Type := Runtime { random_choice : nat -> bool }.

Record world : Type := World { draws : nat }.

Definition fixed_orders : value :=
  VList [VDict [("status", VStr "accepted"); ("power", VInt 1)];
         VDict [("status", VStr "rejected"); ("power", VInt 2)]].

(** Modelled from the spec: [lambda_a/app.py], the order generator, is
    not among the sources (only its tests are, which patch
    [lambda_a.app.random.choice]).  Section 4.2: the handler ignores its
    event, draws one boolean from an unweighted two-outcome random
    source, and returns [{results: true, orders: [...]}] with the two
    fixed orders when the draw is true, [{results: false}] otherwise. *)
Definition lambda_handler (rt : runtime) (event : value) : M world value :=
  fun w =>
    let results := random_choice rt (draws w) in
    let w' := World (S (draws w)) in
    if results then
      (inr (VDict [("results", VBool true); ("orders", fixed_orders)]), w')
    else
      (inr (VDict [("results", VBool false)]), w').

End LambdaA.

(* ================================================================== *)
(** * lambda_b/app.py: the order archiver                             *)
(* ================================================================== *)

Module LambdaB.
Import Py.
Local Open Scope py_scope.

(** The keyword arguments of one [s3_client.put_object] call. *)
Record put_request : Type := PutObject {
  Bucket : string;
  Key : string;
  Body : string;
  ContentType : string;
  ServerSideEncryption : string
}.

(** [json_dumps] is [json.dumps(obj)], which raises on a value that is
    not JSON-serialisable; [json_dumps_indent] is
    [json.dumps(obj, indent=2, default=str)]; [utc_now_isoformat] is
    [dt.datetime.now(dt.UTC).isoformat()], read once per invocation. *)
Record runtime : Type := Runtime {
  LOG_BUCKET : string;
  utc_now_isoformat : string;
  json_dumps : value -> exn + string;
  json_dumps_indent : value -> exn + string;
  put_object_fault : put_request -> option exn
}.

(** The [put_object] calls made so far. *)
Record world : Type := World { s3_calls : list put_request }.

Section Handler.
Variable rt : runtime.

(** [s3_client.put_object(...)] *)
Definition put_object (req : put_request) : M world unit :=
  fun w =>
    let w' := World (s3_calls w ++ [req]) in
    match put_object_fault rt req with
    | Some e => (inl e, w')
    | None => (inr tt, w')
    end.

(** [save_to_s3(data, filename)]; the handler logs and re-raises. *)
Definition save_to_s3 (data : value) (filename : string) : M world unit :=
  try_except
    (json_data <- lift (json_dumps_indent rt data) ;;
     put_object (PutObject (LOG_BUCKET rt) (filename ++ ".json") json_data
                           "application/json" "AES256"))
    (fun e => raise e).

(** [lambda_handler(event, context)]; the first line formats the event
    with [json.dumps] for the log before anything else happens. *)
Definition lambda_handler (event : value) : M world value :=
  _ <- lift (json_dumps rt event) ;;
  status <- lift (subscript event "status") ;;
  if eq_str status "rejected" then
    raise (Exn ValueError "Order status is rejected!")
  else
    save_to_s3 event ("orders/order_" ++ utc_now_isoformat rt) ;;;
    ret (VDict [("statusCode", VInt 200);
                ("message", VStr "Order processed successfully");
                ("order", event)]).

End Handler.

(** ** Vocabulary of the properties *)

(** The one request the handler can make for an event whose stored text
    is [text]. *)
Definition order_request (rt : runtime) (text : string) : put_request :=
  PutObject (LOG_BUCKET rt)
    ("orders/order_" ++ utc_now_isoformat rt ++ ".json")
    text "application/json" "AES256".

End LambdaB.

(* ================================================================== *)
(** * post_lambda/app.py: the order ingestion API                     *)
(* ================================================================== *)

Module PostLambda.
Import Py.
Local Open Scope py_scope.

(** TTL: 24 hours in seconds. *)
Definition TTL_SECONDS : Z := 24 * 60 * 60.

(** What the handler cannot decide by itself: [str] of a float, the JSON
    decoder, the clock ([clock k] is [int(time.time())] at the [k]-th
    reading) and whether the table's batch writer raises. *)
Record runtime : Type := Runtime {
  float_str : spec_float -> string;
  json_loads : string -> exn + value;
  clock : nat -> Z;
  batch_writer_fault : option exn;
  put_item_fault : list value -> value -> option exn;
  batch_exit_fault : list value -> option exn
}.

(** Calls made on the DynamoDB table, in order. *)
Inductive table_call : Type :=
| BatchWriter
| PutItem (item : value)
| BatchExit.

Record world : Type := World {
  clock_reads : nat;
  table_calls : list table_call
}.

(** Items handed to [batch.put_item] so far. *)
Fixpoint puts (calls : list table_call) : list value :=
  match calls with
  | [] => []
  | PutItem item :: rest => item :: puts rest
  | _ :: rest => puts rest
  end.

Definition called (c : table_call) (w : world) : world :=
  World (clock_reads w) (table_calls w ++ [c]).

(** The HTTP-shaped response.  [body] is the document given to
    [json.dumps]; the wire body is its serialisation. *)
Record response : Type := Response {
  isBase64Encoded : bool;
  statusCode : Z;
  headers : dict;
  body : value
}.

Definition respond (status : Z) (doc : value) : response :=
  Response false status [("Content-Type", VStr "application/json")] doc.

Definition error_response (status : Z) (message : string) : response :=
  respond status (VDict [("errorMessage", VStr message)]).

Definition str_of_nat (n : nat) : string :=
  NilZero.string_of_uint (Nat.to_uint n).

Section Handler.
Variable rt : runtime.

(** [convert_floats_to_decimal(obj)] *)
Fixpoint convert_floats_to_decimal (obj : value) : value :=
  match obj with
  | VFloat f => VDecimal (float_str rt f)
  | VDict d =>
      VDict (map (fun kv => (fst kv, convert_floats_to_decimal (snd kv))) d)
  | VList l => VList (map convert_floats_to_decimal l)
  | _ => obj
  end.

(** [int(time.time())] *)
Definition time_now : M world Z :=
  fun w => (inr (clock rt (clock_reads w)),
            World (S (clock_reads w)) (table_calls w)).

(** [{**record, ...}]: only a mapping can be unpacked. *)
Definition unpack_mapping (record : value) : exn + dict :=
  match record with
  | VDict d => inr d
  | _ => inl (Exn TypeError
                ("'" ++ type_name record ++ "' object is not a mapping"))
  end.

(** [batch.put_item(Item=item)] *)
Definition put_item (item : value) : M world unit :=
  fun w =>
    let before := puts (table_calls w) in
    let w' := called (PutItem item) w in
    match put_item_fault rt before item with
    | Some e => (inl e, w')
    | None => (inr tt, w')
    end.

(** [with table.batch_writer() as batch: body]: leaving the block
    flushes the buffer, also when the block raised. *)
Definition with_batch_writer (block : M world unit) : M world unit :=
  fun w =>
    let w1 := called BatchWriter w in
    match batch_writer_fault rt with
    | Some e => (inl e, w1)
    | None =>
        let (r, w2) := block w1 in
        let w3 := called BatchExit w2 in
        match batch_exit_fault rt (puts (table_calls w2)) with
        | Some e => (inl e, w3)
        | None => (r, w3)
        end
    end.

(** The body of [for record in records:] in [save_to_db]. *)
Fixpoint put_records (ttl_timestamp : Z) (records : list value)
  : M world unit :=
  match records with
  | [] => ret tt
  | record :: rest =>
      entries <- lift (unpack_mapping record) ;;
      created_at <- time_now ;;
      let item :=
        VDict (dict_set (dict_set entries "ttl" (VInt ttl_timestamp))
                        "created_at" (VInt created_at)) in
      let item := convert_floats_to_decimal item in
      put_item item ;;;
      put_records ttl_timestamp rest
  end.

(** [save_to_db(records)]; the handler logs and re-raises. *)
Definition save_to_db (records : list value) : M world unit :=
  try_except
    (now <- time_now ;;
     let ttl_timestamp := now + TTL_SECONDS in
     with_batch_writer (put_records ttl_timestamp records))
    (fun e => raise e).

(** The [for order in orders:] validation loop: [inr false] when it
    leaves through the 400 response, [inr true] when it runs to the end. *)
Fixpoint all_have_record_id (orders : list value) : exn + bool :=
  match orders with
  | [] => inr true
  | order :: rest =>
      match contains order "record_id" with
      | inl e => inl e
      | inr false => inr false
      | inr true => all_have_record_id rest
      end
  end.

(** The [try:] block of [lambda_handler]. *)
Definition handle (event : value) : M world response :=
  body <- lift (method_get event "body" VNone) ;;
  match body with
  | VNone => ret (error_response 400 "Request body is empty")
  | _ =>
      orders <- lift (match body with
                      | VStr s => json_loads rt s
                      | _ => inr body
                      end) ;;
      match orders with
      | VList orders =>
          ok <- lift (all_have_record_id orders) ;;
          if ok : bool then
            save_to_db orders ;;;
            let n := str_of_nat (List.length orders) in
            ret (respond 201
                   (VDict [("message",
                            VStr ("Successfully saved " ++ n ++ " orders"));
                           ("count", VInt (Z.of_nat (List.length orders)))]))
          else
            ret (error_response 400
                   "Each order must have a 'record_id' field")
      | _ => ret (error_response 400 "Request body must be a list of orders")
      end
  end.

(** [lambda_handler(event, context)] *)
Definition lambda_handler (event : value) : M world response :=
  _ <- lift (subscript event "httpMethod") ;;
  _ <- lift (subscript event "path") ;;
  try_except (handle event)
    (fun e =>
       if isinstance e JSONDecodeError then
         ret (error_response 400 ("Invalid JSON: " ++ exn_msg e))
       else
         ret (error_response 500 ("Internal server error: " ++ exn_msg e))).

End Handler.

(** ** Vocabulary of the properties *)

(** The event is a mapping that carries the two keys the handler logs. *)
Definition http_event (event : dict) : bool :=
  dict_has event "httpMethod" && dict_has event "path".

(** The value the validation steps look at: the body itself, or what the
    JSON decoder makes of a textual body. *)
Definition parsed_body (rt : runtime) (event : dict) : option value :=
  match dict_get event "body" with
  | None | Some VNone => None
  | Some (VStr s) =>
      match json_loads rt s with
      | inr v => Some v
      | inl _ => None
      end
  | Some v => Some v
  end.

(** A record that has a [record_id] whose value is not empty. *)
Definition carries_nonempty_record_id (record : value) : bool :=
  match record with
  | VDict d =>
      match dict_get d "record_id" with
      | Some v => truthy v
      | None => false
      end
  | _ => false
  end.

(** A record that has the key [record_id]. *)
Definition has_record_id (record : dict) : bool := dict_has record "record_id".

(** Values on which [in] is defined. *)
Definition is_container (v : value) : bool :=
  match v with
  | VDict _ | VStr _ | VList _ => true
  | _ => false
  end.

(** [record_id] is looked for in the record and is not there. *)
Definition lacks_record_id (order : value) : bool :=
  match contains order "record_id" with
  | inr false => true
  | _ => false
  end.

(** The table takes every call without raising. *)
Definition healthy (rt : runtime) : Prop :=
  batch_writer_fault rt = None /\
  (forall before item, put_item_fault rt before item = None) /\
  (forall items, batch_exit_fault rt items = None).

(** The item written for [record] when the batch's expiry reading was
    [ttl] and the reading taken for this record was [created_at]. *)
Definition stamped (rt : runtime) (record : dict) (ttl created_at : Z)
  : value :=
  convert_floats_to_decimal rt
    (VDict (dict_set (dict_set record "ttl" (VInt ttl))
                     "created_at" (VInt created_at))).

(** The items of a batch whose first per-record clock reading is the
    [k]-th one. *)
Fixpoint stamped_batch (rt : runtime) (ttl : Z) (k : nat)
    (records : list dict) : list value :=
  match records with
  | [] => []
  | record :: rest =>
      stamped rt record ttl (clock rt k) :: stamped_batch rt ttl (S k) rest
  end.

(** A float is left somewhere in the document. *)
Fixpoint has_float (v : value) : bool :=
  match v with
  | VFloat _ => true
  | VList l => existsb has_float l
  | VDict d => existsb (fun kv => has_float (snd kv)) d
  | _ => false
  end.

Definition created_response (n : nat) : response :=
  respond 201
    (VDict [("message",
             VStr ("Successfully saved " ++ str_of_nat n ++ " orders"));
            ("count", VInt (Z.of_nat n))]).

End PostLambda.

(* ================================================================== *)
(** * Test doubles                                                     *)
(* ================================================================== *)

(** Concrete collaborators in the manner of the repository's test suite
    (mocked table, patched clock), used to run the handlers on concrete
    events. *)
Module Fixtures.
Import Py.

(** 50.25 and 1.5 as doubles. *)
Definition float_50_25 : spec_float := S754_finite false 7072058789855232 (-47).
Definition float_1_5 : spec_float := S754_finite false 6755399441055744 (-52).
Definition float_45_5 : spec_float := S754_finite false 6403555720167424 (-47).

(** [str] on the floats the fixtures use; no other float is given a
    decimal literal here. *)
Definition fixture_float_str (f : spec_float) : string :=
  match f with
  | S754_zero false => "0.0"
  | S754_zero true => "-0.0"
  | S754_infinity false => "inf"
  | S754_infinity true => "-inf"
  | S754_nan => "nan"
  | S754_finite sign m e =>
      let digits :=
        if (Pos.eqb m 7072058789855232 && Z.eqb e (-47))%bool then "50.25"
        else if (Pos.eqb m 6755399441055744 && Z.eqb e (-52))%bool then "1.5"
        else if (Pos.eqb m 6403555720167424 && Z.eqb e (-47))%bool then "45.5"
        else "<float>" in
      if sign then "-" ++ digits else digits
  end.

(** [json.loads] on the bodies the fixtures use; anything else is
    reported as the decoder reports text that is not JSON. *)
Definition fixture_json_loads (s : string) : exn + value :=
  if String.eqb s "[]" then inr (VList [])
  else if String.eqb s "{}" then inr (VDict [])
  else if String.eqb s "null" then inr VNone
  else inl (Exn JSONDecodeError "Expecting value: line 1 column 1 (char 0)").

(** A table mock that accepts every call. *)
Definition post_runtime (clock : nat -> Z) : PostLambda.runtime :=
  PostLambda.Runtime fixture_float_str fixture_json_loads clock
    None (fun _ _ => None) (fun _ => None).

(** A table whose [batch_writer()] raises, as in
    [test_handler_internal_error]. *)
Definition failing_post_runtime (clock : nat -> Z) : PostLambda.runtime :=
  PostLambda.Runtime fixture_float_str fixture_json_loads clock
    (Some (Exn Exception "DynamoDB error")) (fun _ _ => None) (fun _ => None).

(** A clock that stands still, and one that moves on by a second
    between two readings. *)
Definition frozen_clock (k : nat) : Z := 1700000000.
Definition ticking_clock (k : nat) : Z := 1700000000 + Z.of_nat k.

Definition fresh_table : PostLambda.world := PostLambda.World 0 [].

Definition api_event (body : value) : dict :=
  [("httpMethod", VStr "POST"); ("path", VStr "/orders"); ("body", body)].

(** *** Authorizer *)

Definition secret_response : dict :=
  [("Name", VStr "test-secret"); ("SecretString", VStr "test-secret-key")].

Definition test_claims : dict :=
  [("sub", VStr "user123"); ("email", VStr "test@example.com")].

(** [jwt.decode] on three tokens: one signed with the test key, one
    signed with it but expired, and text that is not a token. *)
Definition fixture_jwt_decode (token : string) (key : value) : exn + dict :=
  if (String.eqb token "valid.test.token" && eq_str key "test-secret-key")%bool
  then inr test_claims
  else if (String.eqb token "expired.test.token"
           && eq_str key "test-secret-key")%bool
  then inl (Exn ExpiredSignatureError "Signature has expired")
  else inl (Exn InvalidTokenError "Not enough segments").

Definition authorizer_runtime (secret_name : option string)
  : Authorizer.runtime :=
  Authorizer.Runtime secret_name (fun _ => inr secret_response)
    fixture_jwt_decode.

Definition cold_start : Authorizer.world := Authorizer.World VNone [] [].

(** Secrets Manager refusing the request. *)
Definition unreachable_secret_runtime : Authorizer.runtime :=
  Authorizer.Runtime (Some "test-secret")
    (fun _ => inl (Exn ClientError
                     "An error occurred (ResourceNotFoundException)"))
    fixture_jwt_decode.

(** A context that has already fetched the secret. *)
Definition warm_start : Authorizer.world :=
  Authorizer.World (VStr "test-secret-key") ["test-secret"] [].

Definition method_arn : string :=
  "arn:aws:execute-api:eu-west-1:123456789:api/dev/POST/orders".

Definition token_event (authorization : string) : dict :=
  [("type", VStr "TOKEN"); ("authorizationToken", VStr authorization);
   ("methodArn", VStr method_arn)].

(** *** Order archiver *)

Definition quote : string := String (ascii_of_nat 34) EmptyString.

(** A string between quotes, with quotes and backslashes escaped; enough
    for printable ASCII text. *)
Fixpoint escape (s : string) : string :=
  match s with
  | EmptyString => EmptyString
  | String c rest =>
      let n := nat_of_ascii c in
      if (Nat.eqb n 34 || Nat.eqb n 92)%bool
      then String (ascii_of_nat 92) (String c (escape rest))
      else String c (escape rest)
  end.

Definition json_string (s : string) : string := quote ++ escape s ++ quote.

Definition str_of_Z (z : Z) : string := NilZero.string_of_int (Z.to_int z).

Fixpoint join (sep : string) (parts : list string) : string :=
  match parts with
  | [] => ""
  | [x] => x
  | x :: rest => x ++ sep ++ join sep rest
  end.

(** All results, or the first exception. *)
Fixpoint sequence (rs : list (exn + string)) : exn + list string :=
  match rs with
  | [] => inr []
  | inl e :: _ => inl e
  | inr x :: rest =>
      match sequence rest with
      | inl e => inl e
      | inr xs => inr (x :: xs)
      end
  end.

(** [json.dumps(obj)] in its compact default layout; with [default_str]
    a Decimal is written as the string [str] gives, as [default=str]
    does, otherwise it is refused. *)
Fixpoint fixture_dumps (default_str : bool) (obj : value) : exn + string :=
  match obj with
  | VNone => inr "null"
  | VBool true => inr "true"
  | VBool false => inr "false"
  | VInt z => inr (str_of_Z z)
  | VFloat f => inr (fixture_float_str f)
  | VDecimal literal =>
      if default_str then inr (json_string literal)
      else inl (Exn TypeError
                  "Object of type Decimal is not JSON serializable")
  | VStr s => inr (json_string s)
  | VList items =>
      match sequence (map (fixture_dumps default_str) items) with
      | inl e => inl e
      | inr parts => inr ("[" ++ join ", " parts ++ "]")
      end
  | VDict entries =>
      match sequence
              (map (fun kv =>
                      match fixture_dumps default_str (snd kv) with
                      | inl e => inl e
                      | inr text => inr (json_string (fst kv) ++ ": " ++ text)
                      end) entries) with
      | inl e => inl e
      | inr parts => inr ("{" ++ join ", " parts ++ "}")
      end
  end.

(** An S3 mock that accepts every object; the indentation of the stored
    text is left out of this double. *)
Definition archiver_runtime : LambdaB.runtime :=
  LambdaB.Runtime "test-log-bucket" "2024-01-01T00:00:00+00:00"
    (fixture_dumps false) (fixture_dumps true) (fun _ => None).

Definition empty_bucket : LambdaB.world := LambdaB.World [].

(** An S3 mock whose [put_object] raises, as in
    [test_save_to_s3_raises_on_error]. *)
Definition failing_archiver_runtime : LambdaB.runtime :=
  LambdaB.Runtime "test-log-bucket" "2024-01-01T00:00:00+00:00"
    (fixture_dumps false) (fixture_dumps true)
    (fun _ => Some (Exn Exception "S3 error")).

(** The orders of [conftest.py]. *)
Definition sample_order : dict :=
  [("status", VStr "accepted"); ("power", VInt 100);
   ("price", VFloat float_50_25)].

Definition sample_rejected_order : dict :=
  [("status", VStr "rejected"); ("power", VInt 200);
   ("price", VFloat float_45_5)].

(** *** Order generator *)

Definition generator_runtime (draw : bool) : LambdaA.runtime :=
  LambdaA.Runtime (fun _ => draw).

End Fixtures.

(* ================================================================== *)
(** * Properties of the ingestion API                                 *)
(* ================================================================== *)

Module PostLambdaSpec.
Import Py PostLambda.

Lemma convert_twice (rt : runtime) (obj : value) :
  convert_floats_to_decimal rt (convert_floats_to_decimal rt obj)
  = convert_floats_to_decimal rt obj.
Proof.
  induction obj using value_nested_ind; simpl; try reflexivity.
  - f_equal. rewrite map_map. apply map_ext_in.
    intros x Hx. rewrite Forall_forall in H. now apply H.
  - f_equal. rewrite map_map. apply map_ext_in.
    intros [k v] Hkv. simpl. f_equal.
    rewrite Forall_forall in H. exact (H (k, v) Hkv).
Qed.

(** C7. The float-to-decimal conversion is idempotent: converting a
    converted document changes nothing; decimals, integers and strings
    pass through unchanged. *)
Theorem convert_floats_to_decimal_idempotent :
  forall (rt : runtime) (obj : value),
    convert_floats_to_decimal rt (convert_floats_to_decimal rt obj)
    = convert_floats_to_decimal rt obj
    /\ (forall s, convert_floats_to_decimal rt (VDecimal s) = VDecimal s)
    /\ (forall z, convert_floats_to_decimal rt (VInt z) = VInt z)
    /\ (forall s, convert_floats_to_decimal rt (VStr s) = VStr s).
Proof.
  intros rt obj. split; [apply convert_twice|].
  repeat split; intros; reflexivity.
Qed.

(** ** The two keys read before the [try:] block *)

Lemma dict_has_get (d : dict) (k : string) :
  dict_has d k = true -> exists v, dict_get d k = Some v.
Proof.
  unfold dict_has. destruct (dict_get d k) as [v|]; [eauto | discriminate].
Qed.

Lemma dict_has_not_get (d : dict) (k : string) :
  dict_has d k = false -> dict_get d k = None.
Proof.
  unfold dict_has. destruct (dict_get d k); [discriminate | reflexivity].
Qed.

(** With both keys present the handler is its guarded region. *)
Lemma lambda_handler_http_event (rt : runtime) (d : dict) (w : world) :
  http_event d = true ->
  lambda_handler rt (VDict d) w
  = try_except (handle rt (VDict d))
      (fun e =>
         if isinstance e JSONDecodeError then
           ret (error_response 400 ("Invalid JSON: " ++ exn_msg e))
         else
           ret (error_response 500 ("Internal server error: " ++ exn_msg e)))
      w.
Proof.
  unfold http_event. intros H. apply andb_prop in H as [Hm Hp].
  apply dict_has_get in Hm as [vm Hm]. apply dict_has_get in Hp as [vp Hp].
  unfold lambda_handler, bind, lift, subscript. rewrite Hm, Hp. reflexivity.
Qed.

(** C9. An event without [httpMethod] or without [path] makes the
    handler raise [KeyError] out of the handler itself: no response is
    returned, whatever the body, and nothing else has happened. *)
Theorem lambda_handler_missing_method_or_path :
  forall (rt : runtime) (d : dict) (w : world),
    dict_has d "httpMethod" = false \/ dict_has d "path" = false ->
    lambda_handler rt (VDict d) w
    = (inl (Exn KeyError
              (if dict_has d "httpMethod" then "'path'" else "'httpMethod'")),
       w).
Proof.
  intros rt d w H.
  unfold lambda_handler, bind, lift, subscript.
  destruct (dict_has d "httpMethod") eqn:Hm.
  - destruct H as [H|H]; [discriminate|].
    apply dict_has_get in Hm as [vm Hm]. rewrite Hm.
    rewrite (dict_has_not_get _ _ H). reflexivity.
  - rewrite (dict_has_not_get _ _ Hm). reflexivity.
Qed.

Lemma lambda_handler_missing_method_or_path_witness :
  lambda_handler (Fixtures.post_runtime Fixtures.frozen_clock)
    (VDict [("path", VStr "/orders"); ("body", VStr "[]")])
    Fixtures.fresh_table
  = (inl (Exn KeyError "'httpMethod'"), Fixtures.fresh_table).
Proof.
  apply (lambda_handler_missing_method_or_path
           (Fixtures.post_runtime Fixtures.frozen_clock)
           [("path", VStr "/orders"); ("body", VStr "[]")]
           Fixtures.fresh_table).
  left. reflexivity.
Defined.

(** C10. A body that is the empty string is not treated as absent: it
    goes to the JSON decoder, and the decoder's error becomes a 400
    response whose message starts with [Invalid JSON:]. *)
Theorem lambda_handler_empty_string_body :
  forall (rt : runtime) (d : dict) (w : world) (e : exn),
    http_event d = true ->
    dict_get d "body" = Some (VStr "") ->
    json_loads rt "" = inl e ->
    isinstance e JSONDecodeError = true ->
    exists message,
      lambda_handler rt (VDict d) w = (inr (error_response 400 message), w)
      /\ message = "Invalid JSON: " ++ exn_msg e
      /\ String.prefix "Invalid JSON:" message = true
      /\ error_response 400 message
         <> error_response 400 "Request body is empty".
Proof.
  intros rt d w e Hev Hbody Hloads Hcls.
  exists ("Invalid JSON: " ++ exn_msg e).
  rewrite (lambda_handler_http_event rt d w Hev).
  unfold try_except, handle, bind, lift, method_get.
  rewrite Hbody. rewrite Hloads. rewrite Hcls.
  split; [reflexivity|]. split; [reflexivity|]. split; [reflexivity|].
  unfold error_response, respond. intros Habs.
  injection Habs as Habs. discriminate.
Qed.

Lemma lambda_handler_empty_string_body_witness :
  exists message,
    lambda_handler (Fixtures.post_runtime Fixtures.frozen_clock)
      (VDict (Fixtures.api_event (VStr ""))) Fixtures.fresh_table
    = (inr (error_response 400 message), Fixtures.fresh_table)
    /\ message = "Invalid JSON: " ++ "Expecting value: line 1 column 1 (char 0)"
    /\ String.prefix "Invalid JSON:" message = true
    /\ error_response 400 message
       <> error_response 400 "Request body is empty".
Proof.
  apply (lambda_handler_empty_string_body
           (Fixtures.post_runtime Fixtures.frozen_clock)
           (Fixtures.api_event (VStr "")) Fixtures.fresh_table
           (Exn JSONDecodeError "Expecting value: line 1 column 1 (char 0)"));
    reflexivity.
Defined.

(** ** Validation of the batch *)

Lemma all_have_record_id_lacking (orders : list value) :
  forallb is_container orders = true ->
  existsb lacks_record_id orders = true ->
  all_have_record_id orders = inr false.
Proof.
  induction orders as [|order rest IH]; simpl; [discriminate|].
  intros Hc Hl. apply andb_prop in Hc as [Hc Hrest].
  unfold lacks_record_id in Hl.
  destruct order; simpl in Hc; try discriminate; simpl in *;
    match goal with
    | |- context [if ?b then _ else _] =>
        destruct b; simpl in Hl; [now apply IH | reflexivity]
    end.
Qed.

Lemma all_have_record_id_records (records : list dict) :
  forallb has_record_id records = true ->
  all_have_record_id (map VDict records) = inr true.
Proof.
  induction records as [|r rest IH]; simpl; [reflexivity|].
  intros H. apply andb_prop in H as [Hr Hrest].
  unfold has_record_id in Hr. rewrite Hr. now apply IH.
Qed.

(** What [handle] does once the body has been parsed to a list. *)
Lemma handle_parsed_list (rt : runtime) (d : dict) (w : world)
    (orders : list value) :
  parsed_body rt d = Some (VList orders) ->
  handle rt (VDict d) w
  = (ok <- lift (all_have_record_id orders) ;;
     if ok : bool then
       save_to_db rt orders ;;;
       ret (created_response (List.length orders))
     else
       ret (error_response 400 "Each order must have a 'record_id' field"))%py
      w.
Proof.
  unfold parsed_body, handle, bind, lift, method_get.
  destruct (dict_get d "body") as [body|]; [|discriminate].
  destruct body; try discriminate.
  - destruct (json_loads rt s) as [e|v]; [discriminate|].
    intros H. injection H as ->. reflexivity.
  - intros H. injection H as ->. reflexivity.
Qed.

(** C3 (amended). When the parsed body is a list of records and one of
    them has no [record_id] key, the handler answers 400 with the
    message about [record_id] and has made no call on the table (nor
    read the clock): validation of the whole batch comes before any
    write.  The same holds when strings or lists stand among the
    records, as [in] is defined on them too. *)
Theorem lambda_handler_missing_record_id :
  forall (rt : runtime) (d : dict) (w : world) (orders : list value),
    http_event d = true ->
    parsed_body rt d = Some (VList orders) ->
    forallb is_container orders = true ->
    existsb lacks_record_id orders = true ->
    lambda_handler rt (VDict d) w
    = (inr (error_response 400 "Each order must have a 'record_id' field"),
       w).
Proof.
  intros rt d w orders Hev Hbody Hc Hl.
  rewrite (lambda_handler_http_event rt d w Hev).
  unfold try_except. rewrite (handle_parsed_list rt d w orders Hbody).
  unfold bind, lift. rewrite (all_have_record_id_lacking orders Hc Hl).
  reflexivity.
Qed.

Lemma lambda_handler_missing_record_id_witness :
  lambda_handler (Fixtures.post_runtime Fixtures.frozen_clock)
    (VDict (Fixtures.api_event
              (VList [VDict [("record_id", VStr "order-001")];
                      VDict [("status", VStr "pending")]])))
    Fixtures.fresh_table
  = (inr (error_response 400 "Each order must have a 'record_id' field"),
     Fixtures.fresh_table).
Proof.
  apply (lambda_handler_missing_record_id
           (Fixtures.post_runtime Fixtures.frozen_clock)
           (Fixtures.api_event
              (VList [VDict [("record_id", VStr "order-001")];
                      VDict [("status", VStr "pending")]]))
           Fixtures.fresh_table
           [VDict [("record_id", VStr "order-001")];
            VDict [("status", VStr "pending")]]);
    reflexivity.
Defined.

(** C3 as stated fails: a record whose [record_id] is the empty string
    does not carry a non-empty [record_id], yet the batch is accepted
    with 201 and the record is written. *)
Lemma empty_record_id_is_accepted :
  let rt := Fixtures.post_runtime Fixtures.frozen_clock in
  let orders := [VDict [("record_id", VStr "")]] in
  let event := Fixtures.api_event (VList orders) in
  let out := lambda_handler rt (VDict event) Fixtures.fresh_table in
  parsed_body rt event = Some (VList orders)
  /\ existsb (fun o => negb (carries_nonempty_record_id o)) orders = true
  /\ fst out = inr (created_response 1)
  /\ fst out
     <> inr (error_response 400 "Each order must have a 'record_id' field")
  /\ puts (table_calls (snd out))
     = [VDict [("record_id", VStr ""); ("ttl", VInt 1700086400);
               ("created_at", VInt 1700000000)]].
Proof.
  cbv zeta. repeat split; try reflexivity.
  vm_compute. discriminate.
Qed.

(** ** Writing the batch *)

Local Open Scope list_scope.

Lemma puts_app (xs ys : list table_call) :
  puts (xs ++ ys) = puts xs ++ puts ys.
Proof.
  induction xs as [|c xs IH]; simpl; [reflexivity|].
  destruct c; simpl; now rewrite IH.
Qed.

Lemma puts_map_PutItem (items : list value) :
  puts (map PutItem items) = items.
Proof.
  induction items as [|item rest IH]; simpl; [reflexivity | now rewrite IH].
Qed.

(** On a healthy table the loop puts one stamped item per record, each
    with a clock reading of its own, and reads the clock once per
    record. *)
Lemma put_records_healthy (rt : runtime) (ttl : Z) (records : list dict) :
  healthy rt ->
  forall w : world,
    put_records rt ttl (map VDict records) w
    = (inr tt,
       World (clock_reads w + List.length records)
             (table_calls w
              ++ map PutItem (stamped_batch rt ttl (clock_reads w) records))).
Proof.
  intros (_ & Hput & _).
  induction records as [|record rest IH]; intros w; simpl.
  - unfold ret. rewrite Nat.add_0_r, app_nil_r. now destruct w.
  - unfold bind, lift, time_now, put_item. simpl. rewrite Hput.
    rewrite IH. unfold called, stamped. simpl.
    rewrite <- app_assoc. simpl. f_equal. f_equal. lia.
Qed.

Lemma save_to_db_healthy (rt : runtime) (records : list dict) (w : world) :
  healthy rt ->
  save_to_db rt (map VDict records) w
  = (inr tt,
     World (S (clock_reads w) + List.length records)
           (table_calls w
            ++ BatchWriter
               :: map PutItem
                    (stamped_batch rt (clock rt (clock_reads w) + TTL_SECONDS)
                       (S (clock_reads w)) records)
               ++ [BatchExit])).
Proof.
  intros Hrt. pose proof Hrt as (Hbw & _ & Hexit).
  unfold save_to_db, try_except, bind, time_now, with_batch_writer.
  rewrite Hbw. rewrite (put_records_healthy rt _ records Hrt).
  rewrite Hexit. unfold called. simpl.
  repeat rewrite <- app_assoc. reflexivity.
Qed.

(** C4 (amended). For a batch of records that all have [record_id],
    with a table that takes the writes, the handler answers 201 and has
    put, in order, one item per record: the record with [ttl] set to the
    clock reading taken once before the batch plus 86400, and
    [created_at] set to a reading taken for that record, every float
    leaf replaced by the Decimal of its [str] (integers and strings are
    left alone by the conversion, see C7). *)
Theorem lambda_handler_writes_stamped_items :
  forall (rt : runtime) (d : dict) (w : world) (records : list dict),
    http_event d = true ->
    parsed_body rt d = Some (VList (map VDict records)) ->
    forallb has_record_id records = true ->
    healthy rt ->
    let ttl := clock rt (clock_reads w) + 86400 in
    let out := lambda_handler rt (VDict d) w in
    fst out = inr (created_response (List.length records))
    /\ puts (table_calls (snd out))
       = puts (table_calls w)
         ++ stamped_batch rt ttl (S (clock_reads w)) records
    /\ table_calls (snd out)
       = table_calls w
         ++ BatchWriter
            :: map PutItem (stamped_batch rt ttl (S (clock_reads w)) records)
            ++ [BatchExit].
Proof.
  intros rt d w records Hev Hbody Hids Hrt ttl out.
  assert (Hout : out
    = (inr (created_response (List.length records)),
       World (S (clock_reads w) + List.length records)
             (table_calls w
              ++ BatchWriter
                 :: map PutItem
                      (stamped_batch rt ttl (S (clock_reads w)) records)
                 ++ [BatchExit]))).
  { unfold out. rewrite (lambda_handler_http_event rt d w Hev).
    unfold try_except. rewrite (handle_parsed_list rt d w _ Hbody).
    unfold bind at 1. unfold lift at 1.
    rewrite (all_have_record_id_records records Hids).
    unfold bind. rewrite (save_to_db_healthy rt records w Hrt).
    unfold ret. rewrite length_map. reflexivity. }
  rewrite Hout. simpl. split; [reflexivity|]. split; [|reflexivity].
  rewrite puts_app. simpl. rewrite puts_app. simpl. rewrite app_nil_r.
  f_equal. apply puts_map_PutItem.
Qed.

Lemma lambda_handler_writes_stamped_items_witness :
  let rt := Fixtures.post_runtime Fixtures.ticking_clock in
  let records :=
    [[("record_id", VStr "order-001"); ("status", VStr "pending");
      ("power", VInt 100); ("price", VFloat Fixtures.float_50_25)];
     [("record_id", VStr "order-002");
      ("readings", VList [VFloat Fixtures.float_1_5; VInt 2])]] in
  let out :=
    lambda_handler rt
      (VDict (Fixtures.api_event (VList (map VDict records))))
      Fixtures.fresh_table in
  fst out = inr (created_response 2)
  /\ puts (table_calls (snd out))
     = [VDict [("record_id", VStr "order-001"); ("status", VStr "pending");
               ("power", VInt 100); ("price", VDecimal "50.25");
               ("ttl", VInt 1700086400); ("created_at", VInt 1700000001)];
        VDict [("record_id", VStr "order-002");
               ("readings", VList [VDecimal "1.5"; VInt 2]);
               ("ttl", VInt 1700086400); ("created_at", VInt 1700000002)]]
  /\ table_calls (snd out)
     = BatchWriter
       :: map PutItem (puts (table_calls (snd out))) ++ [BatchExit].
Proof.
  cbv zeta.
  apply (lambda_handler_writes_stamped_items
           (Fixtures.post_runtime Fixtures.ticking_clock)
           (Fixtures.api_event
              (VList (map VDict
                 [[("record_id", VStr "order-001"); ("status", VStr "pending");
                   ("power", VInt 100);
                   ("price", VFloat Fixtures.float_50_25)];
                  [("record_id", VStr "order-002");
                   ("readings",
                    VList [VFloat Fixtures.float_1_5; VInt 2])]])))
           Fixtures.fresh_table
           [[("record_id", VStr "order-001"); ("status", VStr "pending");
             ("power", VInt 100); ("price", VFloat Fixtures.float_50_25)];
            [("record_id", VStr "order-002");
             ("readings", VList [VFloat Fixtures.float_1_5; VInt 2])]]).
  - reflexivity.
  - reflexivity.
  - reflexivity.
  - repeat split; intros; reflexivity.
Defined.

(** Conversely, whatever the table does, a loop that ran to its end
    went over mappings only and put their stamped items. *)
Lemma put_records_returned (rt : runtime) (ttl : Z) (orders : list value) :
  forall w w' : world,
    put_records rt ttl orders w = (inr tt, w') ->
    exists records : list dict,
      orders = map VDict records
      /\ clock_reads w' = (clock_reads w + List.length records)%nat
      /\ table_calls w'
         = table_calls w
           ++ map PutItem (stamped_batch rt ttl (clock_reads w) records).
Proof.
  induction orders as [|order rest IH]; intros w w' H; simpl in H.
  - unfold ret in H. injection H as <-. exists []. simpl.
    now rewrite Nat.add_0_r, app_nil_r.
  - unfold bind, lift, unpack_mapping in H.
    destruct order as [| | | | | | |record]; try discriminate.
    unfold time_now, put_item in H. simpl in H.
    destruct (put_item_fault rt _ _); [discriminate|].
    apply IH in H as (records & -> & Hreads & Hcalls).
    exists (record :: records). simpl in *. split; [reflexivity|].
    split; [lia|]. rewrite Hcalls. unfold stamped.
    rewrite <- app_assoc. reflexivity.
Qed.

Lemma all_have_record_id_true (records : list dict) :
  all_have_record_id (map VDict records) = inr true ->
  forallb has_record_id records = true.
Proof.
  induction records as [|r rest IH]; simpl; [reflexivity|].
  unfold has_record_id at 1. destruct (dict_has r "record_id");
    [intros H; now apply IH | discriminate].
Qed.

(** Every batch the handler accepts (answers 201) is a list of mappings
    that all have [record_id], and what was put for it is its stamped
    batch: the items of C4 are the only ones an accepted batch can
    leave. *)
Lemma accepted_batch_was_stamped (rt : runtime) (d : dict) (w : world) :
  forall (resp : response) (w' : world),
    lambda_handler rt (VDict d) w = (inr resp, w') ->
    statusCode resp = 201 ->
    exists records : list dict,
      parsed_body rt d = Some (VList (map VDict records))
      /\ forallb has_record_id records = true
      /\ resp = created_response (List.length records)
      /\ puts (table_calls w')
         = puts (table_calls w)
           ++ stamped_batch rt (clock rt (clock_reads w) + 86400)
                (S (clock_reads w)) records.
Proof.
  intros resp w' H Hstatus.
  unfold lambda_handler, bind, lift, subscript in H.
  destruct (dict_get d "httpMethod"); [|discriminate].
  destruct (dict_get d "path"); [|discriminate].
  unfold try_except in H.
  destruct (handle rt (VDict d) w) as [[e|resp0] w0] eqn:Hhandle.
  { destruct (isinstance e JSONDecodeError); unfold ret in H;
      injection H as <- _; discriminate. }
  injection H as -> ->.
  unfold handle, bind, lift, method_get, parsed_body in *.
  assert (Hstep : forall orders,
    (match all_have_record_id orders with
     | inl e => (inl e, w)
     | inr ok =>
         (if ok
          then fun w1 =>
                 match save_to_db rt orders w1 with
                 | (inr _, w2) =>
                     ret (created_response (List.length orders)) w2
                 | (inl e, w2) => (inl e, w2)
                 end
          else ret (error_response 400
                      "Each order must have a 'record_id' field")) w
     end) = (inr resp, w') ->
    exists records : list dict,
      orders = map VDict records
      /\ forallb has_record_id records = true
      /\ resp = created_response (List.length records)
      /\ puts (table_calls w')
         = puts (table_calls w)
           ++ stamped_batch rt (clock rt (clock_reads w) + 86400)
                (S (clock_reads w)) records).
  { intros orders Hrun.
    destruct (all_have_record_id orders) as [e|[|]] eqn:Hall;
      [discriminate| |unfold ret in Hrun; injection Hrun as <- _;
                       discriminate].
    destruct (save_to_db rt orders w) as [[e|[]] w2] eqn:Hsave;
      [discriminate|].
    unfold ret in Hrun. injection Hrun as <- <-.
    unfold save_to_db, try_except, bind, time_now, with_batch_writer,
      raise in Hsave.
    destruct (batch_writer_fault rt); [discriminate|].
    match type of Hsave with
    | context [put_records rt ?t orders ?w1] =>
        destruct (put_records rt t orders w1) as [[e|[]] w3] eqn:Hloop
    end;
      (destruct (batch_exit_fault rt (puts (table_calls w3)));
       [discriminate|]); try discriminate.
    injection Hsave as <-.
    apply put_records_returned in Hloop as (records & -> & _ & Hcalls).
    exists records. split; [reflexivity|].
    split; [exact (all_have_record_id_true records Hall)|].
    split; [now rewrite length_map|].
    unfold called in *. simpl in *. rewrite Hcalls.
    rewrite !puts_app. simpl. rewrite app_nil_r.
    rewrite <- app_assoc. f_equal. simpl.
    change TTL_SECONDS with 86400. apply puts_map_PutItem. }
  destruct (dict_get d "body") as [body|];
    [|unfold ret in Hhandle; injection Hhandle as <- _; discriminate].
  destruct body as [|b|z|f|lit|s|l|d'];
    try (unfold ret in Hhandle; injection Hhandle as <- _; discriminate).
  - destruct (json_loads rt s) as [e|parsed]; [discriminate|].
    destruct parsed as [|b|z|f|lit|s'|l|d'];
      try (unfold ret in Hhandle; injection Hhandle as <- _; discriminate).
    apply Hstep in Hhandle as (records & -> & Hrest). eauto.
  - apply Hstep in Hhandle as (records & -> & Hrest). eauto.
Qed.

(** The handler on the fixtures of the test suite. *)
Example handler_on_test_fixtures :
  let run rt body :=
    fst (lambda_handler rt (VDict (Fixtures.api_event body))
           Fixtures.fresh_table) in
  let mock := Fixtures.post_runtime Fixtures.frozen_clock in
  run mock VNone = inr (error_response 400 "Request body is empty")
  /\ run mock (VStr "not valid json")
     = inr (error_response 400
              "Invalid JSON: Expecting value: line 1 column 1 (char 0)")
  /\ run mock (VDict [("record_id", VStr "single")])
     = inr (error_response 400 "Request body must be a list of orders")
  /\ run mock (VList [VDict [("status", VStr "pending")]])
     = inr (error_response 400 "Each order must have a 'record_id' field")
  /\ run mock (VList [VDict [("record_id", VStr "order-001")];
                      VDict [("record_id", VStr "order-002")]])
     = inr (respond 201
              (VDict [("message", VStr "Successfully saved 2 orders");
                      ("count", VInt 2)]))
  /\ run (Fixtures.failing_post_runtime Fixtures.frozen_clock)
       (VList [VDict [("record_id", VStr "order-001")]])
     = inr (error_response 500 "Internal server error: DynamoDB error").
Proof. cbv zeta. repeat split; reflexivity. Qed.

(** C4 as stated fails: [ttl] and [created_at] come from two separate
    clock readings.  When the clock moves on by a second in between, the
    item written has [ttl = 1700000000 + 86400] and
    [created_at = 1700000001], so no single write time [t] gives
    [ttl = t + 86400] and [created_at = t]. *)
Lemma ttl_and_created_at_are_separate_readings :
  let rt := Fixtures.post_runtime Fixtures.ticking_clock in
  let record := [("record_id", VStr "order-001")] in
  let out :=
    lambda_handler rt (VDict (Fixtures.api_event (VList [VDict record])))
      Fixtures.fresh_table in
  fst out = inr (created_response 1)
  /\ puts (table_calls (snd out))
     = [stamped rt record (1700000000 + 86400) 1700000001]
  /\ ~ (exists t : Z,
          puts (table_calls (snd out)) = [stamped rt record (t + 86400) t]).
Proof.
  cbv zeta. split; [reflexivity|]. split; [reflexivity|].
  intros [t Ht]. vm_compute in Ht.
  injection Ht as Httl Hcreated.
  destruct t as [|t|t]; try discriminate.
  injection Httl as Httl. injection Hcreated as Hcreated.
  subst t. discriminate.
Qed.

End PostLambdaSpec.

(* ================================================================== *)
(** * Properties of the authorizer                                    *)
(* ================================================================== *)

Module AuthorizerSpec.
Import Py Authorizer.

(** Every exception of the model derives from [Exception]. *)
Lemma isinstance_Exception (e : exn) : isinstance e Exception = true.
Proof. destruct e as [[] msg]; reflexivity. Qed.

(** Whatever is raised in the [try:] block leaves the handler as
    [Exception('Unauthorized')]. *)
Lemma except_clauses_collapse (rt : runtime) (event : value) (w w' : world)
    (e : exn) :
  authorize rt event w = (inl e, w') ->
  fst (lambda_handler rt event w) = inl unauthorized.
Proof.
  intros H. unfold lambda_handler, try_except. rewrite H.
  destruct (isinstance e ExpiredSignatureError); [reflexivity|].
  destruct (isinstance e InvalidTokenError); [reflexivity|].
  rewrite isinstance_Exception. reflexivity.
Qed.

(** Without verified claims the [try:] block raises. *)
Lemma authorize_unverified (rt : runtime) (event : value) (w : world) :
  verified_claims rt event w = None ->
  exists e w', authorize rt event w = (inl e, w').
Proof.
  unfold verified_claims, authorize, bind, lift, raise, method_get.
  destruct event as [| | | | | |l|d]; try (intros _; eauto; fail).
  destruct (dict_get d "methodArn") as [arn|];
    (destruct (dict_get d "authorizationToken") as [token|];
     [|intros _; simpl; eauto]);
    (destruct token as [|b|z|f|lit|s|l|d']; simpl;
     [intros _; eauto
     |intros _; destruct (negb b); eauto
     |intros _; destruct (negb (negb (z =? 0))); eauto
     |intros _; destruct f; simpl; eauto
     |intros _; eauto
     |
     |intros _; destruct l; simpl; eauto
     |intros _; destruct d'; simpl; eauto]).
  all: destruct (String.eqb s ""); simpl; [intros _; eauto|];
    destruct (validate_token rt (strip_bearer s) w) as [[e|claims] w'];
    simpl; [intros _; eauto | discriminate].
Qed.

Lemma unverified_is_unauthorized (rt : runtime) (event : value) (w : world) :
  verified_claims rt event w = None ->
  fst (lambda_handler rt event w) = inl unauthorized.
Proof.
  intros H. destruct (authorize_unverified rt event w H) as (e & w' & Hraise).
  exact (except_clauses_collapse rt event w w' e Hraise).
Qed.

(** C1. Whenever the invocation's token does not verify (no mapping, no
    token, an empty one, one that is not text, no secret, an expired or
    invalid token, any other exception), the handler raises
    [Exception('Unauthorized')], the same whatever the cause. *)
Theorem lambda_handler_unauthorized :
  forall (rt : runtime) (event : value) (w : world),
    verified_claims rt event w = None ->
    fst (lambda_handler rt event w) = inl (Exn Exception "Unauthorized").
Proof.
  intros rt event w H. exact (unverified_is_unauthorized rt event w H).
Qed.

Lemma lambda_handler_unauthorized_witness :
  fst (lambda_handler (Fixtures.authorizer_runtime (Some "test-secret"))
         (VDict (Fixtures.token_event "Bearer expired.test.token"))
         Fixtures.cold_start)
  = inl (Exn Exception "Unauthorized").
Proof.
  apply (lambda_handler_unauthorized
           (Fixtures.authorizer_runtime (Some "test-secret"))
           (VDict (Fixtures.token_event "Bearer expired.test.token"))
           Fixtures.cold_start).
  reflexivity.
Defined.

(** The causes differ only in what is printed. *)
Example causes_differ_on_stdout :
  let rt := Fixtures.authorizer_runtime (Some "test-secret") in
  let run authorization :=
    lambda_handler rt (VDict (Fixtures.token_event authorization))
      Fixtures.cold_start in
  fst (run "") = inl unauthorized
  /\ fst (run "Bearer expired.test.token") = inl unauthorized
  /\ fst (run "bearer invalid.token.here") = inl unauthorized
  /\ stdout (snd (run ""))
     = ["Authorization error: No authorization token provided"]
  /\ stdout (snd (run "Bearer expired.test.token")) = ["Token expired"]
  /\ stdout (snd (run "bearer invalid.token.here"))
     = ["Invalid token: Not enough segments"].
Proof. cbv zeta. repeat split; reflexivity. Qed.

(** C5. When the token verifies, the handler returns the access
    decision with effect [Allow] on the event's [methodArn]; the
    principal is the claims' [sub] if that key is present, else their
    [email] if present, else ['user']; the context carries the principal
    as [userId] and the claims' [email], or [''] when there is none. *)
Theorem lambda_handler_allows_verified_token :
  forall (rt : runtime) (d : dict) (w : world) (claims : dict),
    verified_claims rt (VDict d) w = Some claims ->
    let principal :=
      match dict_get claims "sub" with
      | Some sub => sub
      | None =>
          match dict_get claims "email" with
          | Some email => email
          | None => VStr "user"
          end
      end in
    let email :=
      match dict_get claims "email" with
      | Some email => email
      | None => VStr ""
      end in
    fst (lambda_handler rt (VDict d) w)
    = inr (VDict
             [("principalId", principal);
              ("policyDocument",
               VDict [("Version", VStr "2012-10-17");
                      ("Statement",
                       VList [VDict [("Action", VStr "execute-api:Invoke");
                                     ("Effect", VStr "Allow");
                                     ("Resource", method_arn_of d)]])]);
              ("context", VDict [("userId", principal); ("email", email)])]).
Proof.
  intros rt d w claims H. cbv zeta.
  unfold verified_claims in H.
  destruct (dict_get d "authorizationToken") as [token|] eqn:Htoken;
    [|discriminate].
  destruct token as [| | | | |s| |]; try discriminate.
  destruct (String.eqb s "") eqn:Hs; [discriminate|].
  destruct (validate_token rt (strip_bearer s) w) as [[e|claims'] w'] eqn:Hv;
    simpl in H; [discriminate|].
  injection H as ->.
  unfold lambda_handler, try_except, authorize, bind, lift, method_get.
  rewrite Htoken. unfold method_arn_of.
  destruct (dict_get d "methodArn") as [arn|]; simpl; rewrite Hs; simpl;
    rewrite Hv; reflexivity.
Qed.

Lemma lambda_handler_allows_verified_token_witness :
  fst (lambda_handler (Fixtures.authorizer_runtime (Some "test-secret"))
         (VDict (Fixtures.token_event "Bearer valid.test.token"))
         Fixtures.cold_start)
  = inr (VDict
           [("principalId", VStr "user123");
            ("policyDocument",
             VDict [("Version", VStr "2012-10-17");
                    ("Statement",
                     VList [VDict [("Action", VStr "execute-api:Invoke");
                                   ("Effect", VStr "Allow");
                                   ("Resource",
                                    VStr Fixtures.method_arn)]])]);
            ("context", VDict [("userId", VStr "user123");
                               ("email", VStr "test@example.com")])]).
Proof.
  apply (lambda_handler_allows_verified_token
           (Fixtures.authorizer_runtime (Some "test-secret"))
           (Fixtures.token_event "Bearer valid.test.token")
           Fixtures.cold_start Fixtures.test_claims).
  reflexivity.
Defined.

(** C6 (amended). When no secret is cached and the secret's name is not
    configured, [get_secret_key] raises the configuration error
    ([ValueError]), but the handler does not let it through: it raises
    [Exception('Unauthorized')] as for a token error, and for an event
    that carries a token the configuration error only shows in the
    printed line. *)
Theorem lambda_handler_missing_configuration :
  forall (rt : runtime) (event : value) (w : world),
    missing_configuration rt w = true ->
    fst (get_secret_key rt w)
    = inl (Exn ValueError "JWT_SECRET_NAME environment variable not set")
    /\ fst (lambda_handler rt event w) = inl (Exn Exception "Unauthorized")
    /\ (forall (d : dict) (s : string),
          event = VDict d ->
          dict_get d "authorizationToken" = Some (VStr s) ->
          String.eqb s "" = false ->
          stdout (snd (lambda_handler rt event w))
          = (stdout w
             ++ ["Authorization error: JWT_SECRET_NAME environment variable not set"])%list).
Proof.
  intros rt event w H.
  assert (Hkey : get_secret_key rt w
                 = (inl (Exn ValueError
                           "JWT_SECRET_NAME environment variable not set"),
                    w)).
  { unfold missing_configuration in H. unfold get_secret_key.
    destruct (cached_secret w); try discriminate.
    destruct (environ_JWT_SECRET_NAME rt) as [name|]; [|reflexivity].
    destruct name; [reflexivity | discriminate]. }
  split; [now rewrite Hkey|]. split.
  - apply unverified_is_unauthorized. unfold verified_claims.
    destruct event; try reflexivity.
    destruct (dict_get entries "authorizationToken") as [token|];
      [|reflexivity].
    destruct token; try reflexivity.
    destruct (String.eqb s ""); [reflexivity|].
    unfold validate_token, bind. rewrite Hkey. reflexivity.
  - intros d s -> Htoken Hs.
    unfold lambda_handler, try_except, authorize, bind, lift, method_get.
    rewrite Htoken.
    destruct (dict_get d "methodArn") as [arn|]; simpl; rewrite Hs; simpl;
      unfold validate_token, bind; rewrite Hkey; reflexivity.
Qed.

Lemma lambda_handler_missing_configuration_witness :
  fst (get_secret_key (Fixtures.authorizer_runtime None) Fixtures.cold_start)
  = inl (Exn ValueError "JWT_SECRET_NAME environment variable not set")
  /\ fst (lambda_handler (Fixtures.authorizer_runtime None)
            (VDict (Fixtures.token_event "Bearer valid.test.token"))
            Fixtures.cold_start)
     = inl (Exn Exception "Unauthorized")
  /\ (forall (d : dict) (s : string),
        VDict (Fixtures.token_event "Bearer valid.test.token") = VDict d ->
        dict_get d "authorizationToken" = Some (VStr s) ->
        String.eqb s "" = false ->
        stdout (snd (lambda_handler (Fixtures.authorizer_runtime None)
                       (VDict (Fixtures.token_event "Bearer valid.test.token"))
                       Fixtures.cold_start))
        = (stdout Fixtures.cold_start
           ++ ["Authorization error: JWT_SECRET_NAME environment variable not set"])%list).
Proof.
  apply (lambda_handler_missing_configuration
           (Fixtures.authorizer_runtime None)
           (VDict (Fixtures.token_event "Bearer valid.test.token"))
           Fixtures.cold_start).
  reflexivity.
Defined.

(** C6 as stated fails: with the secret's name not configured, the
    configuration error raised by [get_secret_key] does not surface; the
    handler's outcome is [Exception('Unauthorized')], the very outcome
    of an expired token under a working configuration. *)
Lemma configuration_error_is_collapsed :
  let event := VDict (Fixtures.token_event "Bearer valid.test.token") in
  let expired := VDict (Fixtures.token_event "Bearer expired.test.token") in
  let unconfigured :=
    lambda_handler (Fixtures.authorizer_runtime None) event
      Fixtures.cold_start in
  fst (get_secret_key (Fixtures.authorizer_runtime None) Fixtures.cold_start)
  = inl (Exn ValueError "JWT_SECRET_NAME environment variable not set")
  /\ fst unconfigured = inl (Exn Exception "Unauthorized")
  /\ fst unconfigured
     <> inl (Exn ValueError "JWT_SECRET_NAME environment variable not set")
  /\ fst unconfigured
     = fst (lambda_handler (Fixtures.authorizer_runtime (Some "test-secret"))
              expired Fixtures.cold_start).
Proof.
  cbv zeta. split; [reflexivity|]. split; [reflexivity|].
  split; [|reflexivity]. vm_compute. discriminate.
Qed.

End AuthorizerSpec.

(* ================================================================== *)
(** * Properties of the order generator                               *)
(* ================================================================== *)

Module LambdaASpec.
Import Py LambdaA.

(** C8. The generator's output is decided by one draw of
    [random.choice([True, False])] and by nothing else: on [True] it is
    the [results: true] document with the two fixed orders, on [False]
    it is [{results: false}], which has no [orders] key; the event plays
    no part. *)
Theorem lambda_handler_two_outcomes :
  forall (rt : runtime) (event : value) (w : world),
    let draw := random_choice rt (draws w) in
    lambda_handler rt event w
    = (inr (if draw
            then VDict [("results", VBool true);
                        ("orders",
                         VList [VDict [("status", VStr "accepted");
                                       ("power", VInt 1)];
                                VDict [("status", VStr "rejected");
                                       ("power", VInt 2)]])]
            else VDict [("results", VBool false)]),
       World (S (draws w)))
    /\ contains (VDict [("results", VBool false)]) "orders" = inr false
    /\ (forall other : value,
          lambda_handler rt other w = lambda_handler rt event w).
Proof.
  intros rt event w draw. unfold lambda_handler. fold draw.
  split; [destruct draw; reflexivity|]. split; reflexivity.
Qed.

Example both_outcomes_occur :
  fst (lambda_handler (Fixtures.generator_runtime true) VNone (World 0))
  <> fst (lambda_handler (Fixtures.generator_runtime false) VNone (World 0)).
Proof. vm_compute. discriminate. Qed.

End LambdaASpec.

(* ================================================================== *)
(** * Properties of the order archiver                                *)
(* ================================================================== *)

Module LambdaBSpec.
Import Py LambdaB.

(** C2. An order whose [status] is ['rejected'] never reaches the
    bucket: the handler raises and has made no [put_object] call; when
    the event can be formatted for the log (any JSON document can), what
    it raises is [ValueError('Order status is rejected!')]. *)
Theorem lambda_handler_rejected_never_stored :
  forall (rt : runtime) (d : dict) (w : world),
    dict_get d "status" = Some (VStr "rejected") ->
    let out := lambda_handler rt (VDict d) w in
    snd out = w
    /\ (exists e, fst out = inl e)
    /\ (forall text, json_dumps rt (VDict d) = inr text ->
          fst out = inl (Exn ValueError "Order status is rejected!")).
Proof.
  intros rt d w Hstatus out. unfold out, lambda_handler, bind, lift, subscript.
  rewrite Hstatus. simpl.
  destruct (json_dumps rt (VDict d)) as [e|text]; simpl.
  - split; [reflexivity|]. split; [eauto | discriminate].
  - split; [reflexivity|]. split; [eauto | reflexivity].
Qed.

Lemma lambda_handler_rejected_never_stored_witness :
  let out :=
    lambda_handler Fixtures.archiver_runtime
      (VDict Fixtures.sample_rejected_order) Fixtures.empty_bucket in
  snd out = Fixtures.empty_bucket
  /\ (exists e, fst out = inl e)
  /\ (forall text,
        json_dumps Fixtures.archiver_runtime
          (VDict Fixtures.sample_rejected_order) = inr text ->
        fst out = inl (Exn ValueError "Order status is rejected!")).
Proof.
  apply (lambda_handler_rejected_never_stored Fixtures.archiver_runtime
           Fixtures.sample_rejected_order Fixtures.empty_bucket).
  reflexivity.
Defined.

(** An accepted order, for comparison, is put once under the
    timestamped key and handed back in the response. *)
Example accepted_order_is_stored :
  let out :=
    lambda_handler Fixtures.archiver_runtime (VDict Fixtures.sample_order)
      Fixtures.empty_bucket in
  fst out
  = inr (VDict [("statusCode", VInt 200);
                ("message", VStr "Order processed successfully");
                ("order", VDict Fixtures.sample_order)])
  /\ map Key (s3_calls (snd out))
     = ["orders/order_2024-01-01T00:00:00+00:00.json"]
  /\ map ServerSideEncryption (s3_calls (snd out)) = ["AES256"]
  /\ map ContentType (s3_calls (snd out)) = ["application/json"].
Proof. cbv zeta. repeat split; reflexivity. Qed.

End LambdaBSpec.

(* ================================================================== *)
(** * Further properties of the authorizer                            *)
(* ================================================================== *)

Module AuthorizerMore.
Import Py Authorizer.
Local Open Scope list_scope.

(** ** The memoized secret *)

(** [get_secret_key] never prints. *)
Lemma get_secret_key_stdout (rt : runtime) (w : world) :
  stdout (snd (get_secret_key rt w)) = stdout w.
Proof.
  unfold get_secret_key.
  destruct (cached_secret w); try reflexivity.
  destruct (environ_JWT_SECRET_NAME rt) as [[|c name]|]; try reflexivity;
    destruct (get_secret_value rt _) as [e|response]; try reflexivity;
    destruct (subscript (VDict response) "SecretString"); reflexivity.
Qed.

(** A secret that was resolved is kept: the next call, whatever the
    environment and Secrets Manager have become, returns the same secret
    and asks for nothing; resolving it took at most one request. *)
Theorem get_secret_key_memoized :
  forall (rt rt' : runtime) (w w1 : world) (secret : value),
    get_secret_key rt w = (inr secret, w1) ->
    secret <> VNone ->
    cached_secret w1 = secret
    /\ get_secret_key rt' w1 = (inr secret, w1)
    /\ (secret_requests w1 = secret_requests w
        \/ exists name, secret_requests w1 = secret_requests w ++ [name]).
Proof.
  intros rt rt' w w1 secret H Hsome.
  assert (Hkept : cached_secret w1 = secret
                  /\ (secret_requests w1 = secret_requests w
                      \/ exists name,
                           secret_requests w1 = secret_requests w ++ [name])).
  { unfold get_secret_key in H.
    destruct (cached_secret w) eqn:Hc;
      try (injection H as <- <-; split; [exact Hc | now left]).
    destruct (environ_JWT_SECRET_NAME rt) as [[|c name]|]; try discriminate.
    destruct (get_secret_value rt _) as [e|response]; [discriminate|].
    destruct (subscript (VDict response) "SecretString") as [e|v];
      [discriminate|].
    injection H as <- <-. simpl. split; [reflexivity|]. right. eauto. }
  destruct Hkept as [Hc Hreq]. split; [exact Hc|]. split; [|exact Hreq].
  unfold get_secret_key. rewrite Hc.
  destruct secret; try reflexivity. now contradiction Hsome.
Qed.

Lemma get_secret_key_memoized_witness :
  cached_secret
    (Authorizer.World (VStr "test-secret-key") ["test-secret"] [])
  = VStr "test-secret-key"
  /\ get_secret_key Fixtures.unreachable_secret_runtime
       (Authorizer.World (VStr "test-secret-key") ["test-secret"] [])
     = (inr (VStr "test-secret-key"),
        Authorizer.World (VStr "test-secret-key") ["test-secret"] [])
  /\ (secret_requests
        (Authorizer.World (VStr "test-secret-key") ["test-secret"] [])
      = secret_requests Fixtures.cold_start
      \/ exists name,
           secret_requests
             (Authorizer.World (VStr "test-secret-key") ["test-secret"] [])
           = secret_requests Fixtures.cold_start ++ [name]).
Proof.
  apply (get_secret_key_memoized
           (Fixtures.authorizer_runtime (Some "test-secret"))
           Fixtures.unreachable_secret_runtime
           Fixtures.cold_start
           (Authorizer.World (VStr "test-secret-key") ["test-secret"] [])
           (VStr "test-secret-key")).
  - reflexivity.
  - discriminate.
Defined.

(** A failed resolution is not remembered: nothing was cached before,
    nothing is cached after, so the next invocation tries again; at most
    one request was made. *)
Theorem get_secret_key_failure_not_cached :
  forall (rt : runtime) (w w1 : world) (e : exn),
    get_secret_key rt w = (inl e, w1) ->
    cached_secret w = VNone
    /\ cached_secret w1 = VNone
    /\ (secret_requests w1 = secret_requests w
        \/ exists name,
             environ_JWT_SECRET_NAME rt = Some name
             /\ secret_requests w1 = secret_requests w ++ [name]).
Proof.
  intros rt w w1 e H. unfold get_secret_key in H.
  destruct (cached_secret w) eqn:Hc; try discriminate.
  split; [reflexivity|].
  destruct (environ_JWT_SECRET_NAME rt) as [[|c name]|] eqn:Henv;
    try (injection H as _ <-; split; [first [exact Hc | reflexivity] | now left]).
  destruct (get_secret_value rt _) as [e'|response].
  - injection H as _ <-. simpl. split; [first [exact Hc | reflexivity]|]. right. eauto.
  - destruct (subscript (VDict response) "SecretString") as [e'|v];
      [|discriminate].
    injection H as _ <-. simpl. split; [first [exact Hc | reflexivity]|]. right. eauto.
Qed.

Lemma get_secret_key_failure_not_cached_witness :
  cached_secret Fixtures.cold_start = VNone
  /\ cached_secret (Authorizer.World VNone ["test-secret"] []) = VNone
  /\ (secret_requests (Authorizer.World VNone ["test-secret"] [])
      = secret_requests Fixtures.cold_start
      \/ exists name,
           environ_JWT_SECRET_NAME Fixtures.unreachable_secret_runtime
           = Some name
           /\ secret_requests (Authorizer.World VNone ["test-secret"] [])
              = secret_requests Fixtures.cold_start ++ [name]).
Proof.
  apply (get_secret_key_failure_not_cached
           Fixtures.unreachable_secret_runtime Fixtures.cold_start
           (Authorizer.World VNone ["test-secret"] [])
           (Exn ClientError "An error occurred (ResourceNotFoundException)")).
  reflexivity.
Defined.

(** ** What an invocation does to the execution context *)

(** The [try:] block changes the context only through
    [get_secret_key]. *)
Lemma authorize_world (rt : runtime) (event : value) (w : world) :
  snd (authorize rt event w) = w
  \/ snd (authorize rt event w) = snd (get_secret_key rt w).
Proof.
  unfold authorize, bind, lift, raise, method_get.
  destruct event; try (now left).
  destruct (dict_get entries "authorizationToken") as [token|];
    destruct (dict_get entries "methodArn") as [arn|]; simpl;
    try (now left).
  all: destruct (negb (truthy token)); [now left|].
  all: destruct token; try (now left).
  all: right; unfold validate_token, bind, lift;
    destruct (get_secret_key rt w) as [[e|key] w1]; simpl; [reflexivity|];
    destruct (jwt_decode rt _ key); reflexivity.
Qed.

(** The [except] clauses print one line and change nothing else. *)
Lemma lambda_handler_world (rt : runtime) (event : value) (w : world) :
  let inner := authorize rt event w in
  let out := lambda_handler rt event w in
  cached_secret (snd out) = cached_secret (snd inner)
  /\ secret_requests (snd out) = secret_requests (snd inner)
  /\ match fst inner with
     | inr policy => out = (inr policy, snd inner)
     | inl _ =>
         fst out = inl unauthorized
         /\ exists line, stdout (snd out) = stdout (snd inner) ++ [line]
     end.
Proof.
  cbv zeta. unfold lambda_handler, try_except.
  destruct (authorize rt event w) as [[e|policy] w1]; cbn [fst snd];
    [|repeat split; reflexivity].
  rewrite AuthorizerSpec.isinstance_Exception.
  destruct (isinstance e ExpiredSignatureError);
    [|destruct (isinstance e InvalidTokenError)];
    (split; [reflexivity|]; split; [reflexivity|];
     split; [reflexivity|]; eexists; reflexivity).
Qed.

(** Once a secret is cached, no invocation, whatever its event and
    whatever has become of the environment, asks Secrets Manager for
    anything or touches the cache. *)
Theorem warm_context_never_fetches :
  forall (rt : runtime) (event : value) (w : world),
    cached_secret w <> VNone ->
    cached_secret (snd (lambda_handler rt event w)) = cached_secret w
    /\ secret_requests (snd (lambda_handler rt event w)) = secret_requests w.
Proof.
  intros rt event w Hwarm.
  destruct (lambda_handler_world rt event w) as (Hc & Hr & _).
  rewrite Hc, Hr.
  assert (Hkey : snd (get_secret_key rt w) = w).
  { unfold get_secret_key. destruct (cached_secret w); try reflexivity.
    now contradiction Hwarm. }
  destruct (authorize_world rt event w) as [-> | ->];
    [|rewrite Hkey]; split; reflexivity.
Qed.

Lemma warm_context_never_fetches_witness :
  cached_secret
    (snd (lambda_handler Fixtures.unreachable_secret_runtime
            (VDict (Fixtures.token_event "Bearer valid.test.token"))
            Fixtures.warm_start))
  = cached_secret Fixtures.warm_start
  /\ secret_requests
       (snd (lambda_handler Fixtures.unreachable_secret_runtime
               (VDict (Fixtures.token_event "Bearer valid.test.token"))
               Fixtures.warm_start))
     = secret_requests Fixtures.warm_start.
Proof.
  apply (warm_context_never_fetches Fixtures.unreachable_secret_runtime
           (VDict (Fixtures.token_event "Bearer valid.test.token"))
           Fixtures.warm_start).
  discriminate.
Defined.

(** An invocation prints exactly one line when it fails and none when
    it allows the call. *)
Theorem one_printed_line_per_failure :
  forall (rt : runtime) (event : value) (w : world),
    match fst (lambda_handler rt event w) with
    | inl _ =>
        exists line,
          stdout (snd (lambda_handler rt event w)) = stdout w ++ [line]
    | inr _ => stdout (snd (lambda_handler rt event w)) = stdout w
    end.
Proof.
  intros rt event w.
  assert (Hinner : stdout (snd (authorize rt event w)) = stdout w).
  { destruct (authorize_world rt event w) as [-> | ->];
      [reflexivity | apply get_secret_key_stdout]. }
  destruct (lambda_handler_world rt event w) as (_ & _ & H).
  destruct (fst (authorize rt event w)) as [e|policy].
  - destruct H as (-> & line & ->). rewrite Hinner. eauto.
  - rewrite H. simpl. exact Hinner.
Qed.

(** Without a token (key absent, empty string, or any other falsy
    value) the handler fails before it looks for the secret: the
    context is as it was, but for the printed line. *)
Theorem missing_token_never_reaches_secret :
  forall (rt : runtime) (d : dict) (w : world),
    match dict_get d "authorizationToken" with
    | Some token => truthy token
    | None => false
    end = false ->
    lambda_handler rt (VDict d) w
    = (inl (Exn Exception "Unauthorized"),
       World (cached_secret w) (secret_requests w)
         (stdout w
          ++ ["Authorization error: No authorization token provided"])).
Proof.
  intros rt d w H.
  unfold lambda_handler, try_except, authorize, bind, lift, method_get.
  destruct (dict_get d "authorizationToken") as [token|];
    destruct (dict_get d "methodArn") as [arn|]; simpl;
    try rewrite H; reflexivity.
Qed.

Lemma missing_token_never_reaches_secret_witness :
  lambda_handler (Fixtures.authorizer_runtime (Some "test-secret"))
    (VDict (Fixtures.token_event "")) Fixtures.cold_start
  = (inl (Exn Exception "Unauthorized"),
     World (cached_secret Fixtures.cold_start)
       (secret_requests Fixtures.cold_start)
       (stdout Fixtures.cold_start
        ++ ["Authorization error: No authorization token provided"])).
Proof.
  apply (missing_token_never_reaches_secret
           (Fixtures.authorizer_runtime (Some "test-secret"))
           (Fixtures.token_event "") Fixtures.cold_start).
  reflexivity.
Defined.

(** ** The [Bearer ] prefix *)

Local Open Scope string_scope.

(** Seven characters that lower-case to [bearer ] are removed, whatever
    their case. *)
Lemma strip_bearer_prefixed (p t : string) :
  lower p = "bearer " -> strip_bearer (p ++ t) = t.
Proof.
  intros H.
  do 7 (destruct p as [|? p]; cbn [lower] in H; [discriminate|];
        injection H as ? H).
  destruct p; [|discriminate].
  unfold strip_bearer. cbn [append lower].
  repeat match goal with
         | Hc : lower_char _ = _ |- _ => rewrite Hc; clear Hc
         end.
  simpl. destruct t; reflexivity.
Qed.

(** A token may come with or without the prefix, in any case: the
    invocation is the same, outcome and context, as with the bare
    token. *)
Theorem bearer_prefix_is_optional :
  forall (rt : runtime) (rest : dict) (w : world) (p t : string),
    lower p = "bearer " ->
    strip_bearer t = t ->
    String.eqb t "" = false ->
    strip_bearer (p ++ t) = t
    /\ lambda_handler rt
         (VDict (("authorizationToken", VStr (p ++ t)) :: rest)) w
       = lambda_handler rt
           (VDict (("authorizationToken", VStr t) :: rest)) w.
Proof.
  intros rt rest w p t Hp Ht Hne.
  pose proof (strip_bearer_prefixed p t Hp) as Hstrip.
  split; [exact Hstrip|].
  assert (Hfull : String.eqb (p ++ t) "" = false).
  { destruct p; [discriminate | reflexivity]. }
  unfold lambda_handler, try_except, authorize, bind, lift, method_get.
  cbn [dict_get String.eqb Ascii.eqb Bool.eqb]. simpl dict_get.
  destruct (dict_get rest "methodArn") as [arn|]; unfold truthy;
    rewrite Hfull, Hne; cbn [negb]; rewrite Hstrip, Ht; reflexivity.
Qed.

Lemma bearer_prefix_is_optional_witness :
  strip_bearer ("BeArEr " ++ "valid.test.token") = "valid.test.token"
  /\ lambda_handler (Fixtures.authorizer_runtime (Some "test-secret"))
       (VDict (("authorizationToken",
                VStr ("BeArEr " ++ "valid.test.token"))
               :: [("methodArn", VStr Fixtures.method_arn)]))
       Fixtures.cold_start
     = lambda_handler (Fixtures.authorizer_runtime (Some "test-secret"))
         (VDict (("authorizationToken", VStr "valid.test.token")
                 :: [("methodArn", VStr Fixtures.method_arn)]))
         Fixtures.cold_start.
Proof.
  apply (bearer_prefix_is_optional
           (Fixtures.authorizer_runtime (Some "test-secret"))
           [("methodArn", VStr Fixtures.method_arn)]
           Fixtures.cold_start "BeArEr " "valid.test.token");
    reflexivity.
Defined.

(** ** Only a decoded token is allowed *)

(** The handler returns a policy only if [jwt.decode] accepted the
    token, stripped of its prefix, under the secret that
    [get_secret_key] resolved; the policy is then the Allow decision
    for the decoded claims. *)
Theorem allow_requires_decoded_token :
  forall (rt : runtime) (event : value) (w : world) (policy : value),
    fst (lambda_handler rt event w) = inr policy ->
    exists (d : dict) (s : string) (key : value) (claims : dict),
      event = VDict d
      /\ dict_get d "authorizationToken" = Some (VStr s)
      /\ s <> ""%string
      /\ fst (get_secret_key rt w) = inr key
      /\ jwt_decode rt (strip_bearer s) key = inr claims
      /\ policy = allow_policy (principal_of claims) (method_arn_of d)
                    (email_of claims).
Proof.
  intros rt event w policy H.
  destruct (verified_claims rt event w) as [claims|] eqn:Hv.
  2:{ rewrite (AuthorizerSpec.unverified_is_unauthorized rt event w Hv) in H.
      discriminate. }
  unfold verified_claims in Hv.
  destruct event as [| | | | | | |d]; try discriminate.
  destruct (dict_get d "authorizationToken") as [token|] eqn:Htoken;
    [|discriminate].
  destruct token as [| | | | |s| |]; try discriminate.
  destruct (String.eqb s "") eqn:Hs; [discriminate|].
  destruct (validate_token rt (strip_bearer s) w) as [[e|claims'] w1] eqn:Hval;
    simpl in Hv; [discriminate|]. injection Hv as ->.
  unfold validate_token, bind, lift in Hval.
  destruct (get_secret_key rt w) as [[e|key] w2] eqn:Hkey; [discriminate|].
  destruct (jwt_decode rt (strip_bearer s) key) as [e|c] eqn:Hdec;
    [discriminate|]. injection Hval as -> ->.
  exists d, s, key, claims. split; [reflexivity|]. split; [exact Htoken|].
  split; [intros ->; discriminate|]. split; [reflexivity|].
  split; [exact Hdec|].
  unfold lambda_handler, try_except, authorize, bind, lift, method_get in H.
  rewrite Htoken in H. unfold method_arn_of.
  unfold validate_token, bind, lift in H.
  destruct (dict_get d "methodArn") as [arn|]; simpl in H;
    rewrite Hs in H; simpl in H; rewrite Hkey, Hdec in H; simpl in H;
    injection H as <-; reflexivity.
Qed.

Lemma allow_requires_decoded_token_witness :
  exists (d : dict) (s : string) (key : value) (claims : dict),
    VDict (Fixtures.token_event "Bearer valid.test.token") = VDict d
    /\ dict_get d "authorizationToken" = Some (VStr s)
    /\ s <> ""%string
    /\ fst (get_secret_key (Fixtures.authorizer_runtime (Some "test-secret"))
              Fixtures.cold_start) = inr key
    /\ jwt_decode (Fixtures.authorizer_runtime (Some "test-secret"))
         (strip_bearer s) key = inr claims
    /\ allow_policy (VStr "user123") (VStr Fixtures.method_arn)
         (VStr "test@example.com")
       = allow_policy (principal_of claims) (method_arn_of d)
           (email_of claims).
Proof.
  apply (allow_requires_decoded_token
           (Fixtures.authorizer_runtime (Some "test-secret"))
           (VDict (Fixtures.token_event "Bearer valid.test.token"))
           Fixtures.cold_start
           (allow_policy (VStr "user123") (VStr Fixtures.method_arn)
              (VStr "test@example.com"))).
  reflexivity.
Defined.

End AuthorizerMore.

(* ================================================================== *)
(** * Further properties of the order archiver                        *)
(* ================================================================== *)

Module LambdaBMore.
Import Py LambdaB.
Local Open Scope list_scope.

Local Open Scope string_scope.

(** [save_to_s3] once the text is there: one [put_object] call for
    [filename.json], whose failure is re-raised as it is. *)
Lemma save_to_s3_run (rt : runtime) (data : value) (filename text : string)
    (w : world) :
  json_dumps_indent rt data = inr text ->
  let req := PutObject (LOG_BUCKET rt) (filename ++ ".json") text
               "application/json" "AES256" in
  save_to_s3 rt data filename w
  = (match put_object_fault rt req with
     | Some e => inl e
     | None => inr tt
     end,
     World (s3_calls w ++ [req])%list).
Proof.
  intros Htext req. unfold save_to_s3, try_except, bind, lift, put_object.
  rewrite Htext. fold req. destruct (put_object_fault rt req); reflexivity.
Qed.

Lemma order_request_key (rt : runtime) (text : string) :
  PutObject (LOG_BUCKET rt)
    (("orders/order_" ++ utc_now_isoformat rt) ++ ".json") text
    "application/json" "AES256"
  = order_request rt text.
Proof. reflexivity. Qed.

Local Open Scope list_scope.

(** An order that is not rejected is put once, under
    [orders/order_<timestamp>.json] in the configured bucket, encrypted
    at rest and typed as JSON, and handed back unchanged in a 200
    document. *)
Theorem lambda_handler_stores_order :
  forall (rt : runtime) (d : dict) (w : world) (status : value)
         (line text : string),
    json_dumps rt (VDict d) = inr line ->
    dict_get d "status" = Some status ->
    eq_str status "rejected" = false ->
    json_dumps_indent rt (VDict d) = inr text ->
    put_object_fault rt (order_request rt text) = None ->
    lambda_handler rt (VDict d) w
    = (inr (VDict [("statusCode", VInt 200);
                   ("message", VStr "Order processed successfully");
                   ("order", VDict d)]),
       World (s3_calls w ++ [order_request rt text])).
Proof.
  intros rt d w status line text Hline Hstatus Hrej Htext Hput.
  unfold lambda_handler, bind, lift, subscript.
  rewrite Hline, Hstatus, Hrej.
  rewrite (save_to_s3_run rt (VDict d) _ text w Htext).
  cbv zeta. rewrite order_request_key, Hput. reflexivity.
Qed.

Lemma lambda_handler_stores_order_witness :
  lambda_handler Fixtures.archiver_runtime (VDict Fixtures.sample_order)
    Fixtures.empty_bucket
  = (inr (VDict [("statusCode", VInt 200);
                 ("message", VStr "Order processed successfully");
                 ("order", VDict Fixtures.sample_order)]),
     World (s3_calls Fixtures.empty_bucket
            ++ [order_request Fixtures.archiver_runtime
                  (match Fixtures.fixture_dumps true
                           (VDict Fixtures.sample_order) with
                   | inr text => text
                   | inl _ => ""%string
                   end)])).
Proof.
  apply (lambda_handler_stores_order Fixtures.archiver_runtime
           Fixtures.sample_order Fixtures.empty_bucket (VStr "accepted")
           (match Fixtures.fixture_dumps false
                    (VDict Fixtures.sample_order) with
            | inr text => text
            | inl _ => ""%string
            end));
    reflexivity.
Defined.

(** A failure of the storage call comes out of the handler as the very
    exception the call raised, after that one attempt; no success
    document is returned. *)
Theorem lambda_handler_storage_failure_propagates :
  forall (rt : runtime) (d : dict) (w : world) (status : value)
         (line text : string) (e : exn),
    json_dumps rt (VDict d) = inr line ->
    dict_get d "status" = Some status ->
    eq_str status "rejected" = false ->
    json_dumps_indent rt (VDict d) = inr text ->
    put_object_fault rt (order_request rt text) = Some e ->
    lambda_handler rt (VDict d) w
    = (inl e, World (s3_calls w ++ [order_request rt text])).
Proof.
  intros rt d w status line text e Hline Hstatus Hrej Htext Hput.
  unfold lambda_handler, bind, lift, subscript.
  rewrite Hline, Hstatus, Hrej.
  rewrite (save_to_s3_run rt (VDict d) _ text w Htext).
  cbv zeta. rewrite order_request_key, Hput. reflexivity.
Qed.

Lemma lambda_handler_storage_failure_propagates_witness :
  lambda_handler Fixtures.failing_archiver_runtime
    (VDict Fixtures.sample_order) Fixtures.empty_bucket
  = (inl (Exn Exception "S3 error"),
     World (s3_calls Fixtures.empty_bucket
            ++ [order_request Fixtures.failing_archiver_runtime
                  (match Fixtures.fixture_dumps true
                           (VDict Fixtures.sample_order) with
                   | inr text => text
                   | inl _ => ""%string
                   end)])).
Proof.
  apply (lambda_handler_storage_failure_propagates
           Fixtures.failing_archiver_runtime
           Fixtures.sample_order Fixtures.empty_bucket (VStr "accepted")
           (match Fixtures.fixture_dumps false
                    (VDict Fixtures.sample_order) with
            | inr text => text
            | inl _ => ""%string
            end));
    reflexivity.
Defined.

(** An order document without a [status] key is not stored either: the
    handler raises [KeyError('status')] and makes no storage call. *)
Theorem lambda_handler_missing_status :
  forall (rt : runtime) (d : dict) (w : world) (line : string),
    json_dumps rt (VDict d) = inr line ->
    dict_get d "status" = None ->
    lambda_handler rt (VDict d) w = (inl (Exn KeyError "'status'"), w).
Proof.
  intros rt d w line Hline Hstatus.
  unfold lambda_handler, bind, lift, subscript.
  rewrite Hline, Hstatus. reflexivity.
Qed.

Lemma lambda_handler_missing_status_witness :
  lambda_handler Fixtures.archiver_runtime (VDict [("power", VInt 100)])
    Fixtures.empty_bucket
  = (inl (Exn KeyError "'status'"), Fixtures.empty_bucket).
Proof.
  apply (lambda_handler_missing_status Fixtures.archiver_runtime
           [("power", VInt 100)] Fixtures.empty_bucket
           (match Fixtures.fixture_dumps false (VDict [("power", VInt 100)])
            with
            | inr text => text
            | inl _ => ""%string
            end));
    reflexivity.
Defined.

(** Whatever the event, an invocation leaves the earlier storage calls
    as they were and adds at most one; the one it adds is for an event
    that has a status other than ['rejected'], and always goes to the
    configured bucket under [orders/order_<timestamp>.json] with
    AES256 and the JSON content type. *)
Theorem lambda_handler_at_most_one_put :
  forall (rt : runtime) (event : value) (w : world),
    s3_calls (snd (lambda_handler rt event w)) = s3_calls w
    \/ exists (status : value) (text : string),
         subscript event "status" = inr status
         /\ eq_str status "rejected" = false
         /\ json_dumps_indent rt event = inr text
         /\ s3_calls (snd (lambda_handler rt event w))
            = s3_calls w ++ [order_request rt text].
Proof.
  intros rt event w.
  unfold lambda_handler, bind, lift.
  destruct (json_dumps rt event) as [e|line]; [now left|].
  destruct (subscript event "status") as [e|status]; [now left|].
  destruct (eq_str status "rejected") eqn:Hrej; [now left|].
  destruct (json_dumps_indent rt event) as [e|text] eqn:Htext.
  - left. unfold save_to_s3, try_except, bind, lift, raise.
    rewrite Htext. reflexivity.
  - right. exists status, text.
    split; [reflexivity|]. split; [exact Hrej|]. split; [reflexivity|].
    rewrite (save_to_s3_run rt event _ text w Htext). cbv zeta.
    rewrite order_request_key.
    destruct (put_object_fault rt _); reflexivity.
Qed.

End LambdaBMore.

(* ================================================================== *)
(** * Further properties of the ingestion API                         *)
(* ================================================================== *)

Module PostLambdaMore.
Import Py PostLambda.

(** ** Dictionaries: assignment and lookup *)

Lemma dict_get_set_same (d : dict) (k : string) (v : value) :
  dict_get (dict_set d k v) k = Some v.
Proof.
  induction d as [|[k' v'] rest IH]; simpl.
  - now rewrite String.eqb_refl.
  - destruct (String.eqb k' k) eqn:Hk; simpl; rewrite Hk;
      [reflexivity | exact IH].
Qed.

Lemma dict_get_set_other (d : dict) (k k' : string) (v : value) :
  String.eqb k k' = false ->
  dict_get (dict_set d k v) k' = dict_get d k'.
Proof.
  intros Hne. induction d as [|[k0 v0] rest IH]; simpl.
  - now rewrite Hne.
  - destruct (String.eqb k0 k) eqn:Hk; simpl.
    + apply String.eqb_eq in Hk. subst k0. now rewrite Hne.
    + now rewrite IH.
Qed.

Lemma dict_get_map (f : value -> value) (d : dict) (k : string) :
  dict_get (map (fun kv => (fst kv, f (snd kv))) d) k
  = option_map f (dict_get d k).
Proof.
  induction d as [|[k' v'] rest IH]; simpl; [reflexivity|].
  destruct (String.eqb k' k); [reflexivity | exact IH].
Qed.

(** ** The conversion *)

(** No float is left anywhere in a converted document. *)
Theorem convert_leaves_no_float :
  forall (rt : runtime) (obj : value),
    has_float (convert_floats_to_decimal rt obj) = false.
Proof.
  intros rt obj.
  induction obj using value_nested_ind; simpl; try reflexivity.
  - induction H as [|x l Hx _ IH]; simpl; [reflexivity|].
    now rewrite Hx, IH.
  - induction H as [|[k v] d Hv _ IH]; simpl; [reflexivity|].
    simpl in Hv. now rewrite Hv, IH.
Qed.

(** A document without floats comes back as it went in, whatever else
    it holds (booleans, [None], Decimals, nested containers). *)
Theorem convert_identity_without_floats :
  forall (rt : runtime) (obj : value),
    has_float obj = false ->
    convert_floats_to_decimal rt obj = obj.
Proof.
  intros rt obj.
  induction obj using value_nested_ind; simpl; try reflexivity;
    try discriminate.
  - intros Hl. f_equal.
    induction H as [|x l Hx _ IH]; simpl in *; [reflexivity|].
    apply orb_false_elim in Hl as [Hx' Hl]. now rewrite Hx, IH.
  - intros Hd. f_equal.
    induction H as [|[k v] d Hv _ IH]; simpl in *; [reflexivity|].
    apply orb_false_elim in Hd as [Hv' Hd]. now rewrite Hv, IH.
Qed.

Lemma convert_identity_without_floats_witness :
  convert_floats_to_decimal (Fixtures.post_runtime Fixtures.frozen_clock)
    (VDict [("record_id", VStr "order-001"); ("flag", VBool true);
            ("note", VNone); ("price", VDecimal "50.25");
            ("tags", VList [VStr "a"; VInt 7])])
  = VDict [("record_id", VStr "order-001"); ("flag", VBool true);
           ("note", VNone); ("price", VDecimal "50.25");
           ("tags", VList [VStr "a"; VInt 7])].
Proof.
  apply (convert_identity_without_floats
           (Fixtures.post_runtime Fixtures.frozen_clock)).
  reflexivity.
Defined.

(** The conversion keeps the keys of a mapping, and each key leads to
    the conversion of the value it led to. *)
Theorem convert_keeps_keys :
  forall (rt : runtime) (d : dict) (k : string),
    contains (convert_floats_to_decimal rt (VDict d)) k
    = contains (VDict d) k
    /\ subscript (convert_floats_to_decimal rt (VDict d)) k
       = match subscript (VDict d) k with
         | inr v => inr (convert_floats_to_decimal rt v)
         | inl e => inl e
         end.
Proof.
  intros rt d k. simpl. unfold dict_has.
  rewrite (dict_get_map (convert_floats_to_decimal rt) d k).
  destruct (dict_get d k); split; reflexivity.
Qed.

(** The system fields win over fields of the same name in the record;
    every other key of the item is the record's, with its value
    converted, and a key the record lacks is lacking in the item. *)
Theorem stamped_item_fields :
  forall (rt : runtime) (record : dict) (ttl created_at : Z) (k : string),
    String.eqb "ttl" k = false ->
    String.eqb "created_at" k = false ->
    subscript (stamped rt record ttl created_at) "ttl" = inr (VInt ttl)
    /\ subscript (stamped rt record ttl created_at) "created_at"
       = inr (VInt created_at)
    /\ subscript (stamped rt record ttl created_at) k
       = match subscript (VDict record) k with
         | inr v => inr (convert_floats_to_decimal rt v)
         | inl e => inl e
         end.
Proof.
  intros rt record ttl created_at k Httl Hcreated.
  unfold stamped. simpl. rewrite !dict_get_map.
  rewrite dict_get_set_other by reflexivity.
  rewrite !dict_get_set_same.
  rewrite dict_get_set_other by exact Hcreated.
  rewrite dict_get_set_other by exact Httl.
  destruct (dict_get record k); repeat split; reflexivity.
Qed.

Lemma stamped_item_fields_witness :
  let rt := Fixtures.post_runtime Fixtures.frozen_clock in
  let record :=
    [("record_id", VStr "order-001"); ("ttl", VStr "never");
     ("price", VFloat Fixtures.float_50_25)] in
  subscript (stamped rt record 1700086400 1700000000) "ttl"
  = inr (VInt 1700086400)
  /\ subscript (stamped rt record 1700086400 1700000000) "created_at"
     = inr (VInt 1700000000)
  /\ subscript (stamped rt record 1700086400 1700000000) "price"
     = match subscript (VDict record) "price" with
       | inr v => inr (convert_floats_to_decimal rt v)
       | inl e => inl e
       end.
Proof.
  cbv zeta.
  apply (stamped_item_fields (Fixtures.post_runtime Fixtures.frozen_clock)
           [("record_id", VStr "order-001"); ("ttl", VStr "never");
            ("price", VFloat Fixtures.float_50_25)]
           1700086400 1700000000 "price");
    reflexivity.
Defined.

(** ** The validation gate *)

Local Open Scope string_scope.

(** The guarded region alone, for an event with both logged keys. *)
Lemma guarded (rt : runtime) (d : dict) (w : world) :
  http_event d = true ->
  lambda_handler rt (VDict d) w
  = match handle rt (VDict d) w with
    | (inr resp, w') => (inr resp, w')
    | (inl e, w') =>
        (inr (if isinstance e JSONDecodeError
              then error_response 400 ("Invalid JSON: " ++ exn_msg e)
              else error_response 500
                     ("Internal server error: " ++ exn_msg e)),
         w')
    end.
Proof.
  intros Hev. rewrite (PostLambdaSpec.lambda_handler_http_event rt d w Hev).
  unfold try_except.
  destruct (handle rt (VDict d) w) as [[e|resp] w']; [|reflexivity].
  destruct (isinstance e JSONDecodeError); reflexivity.
Qed.

(** A body that is absent or [None] is answered with 400 "Request body
    is empty"; nothing is parsed, read or written. *)
Theorem lambda_handler_absent_body :
  forall (rt : runtime) (d : dict) (w : world),
    http_event d = true ->
    match dict_get d "body" with
    | None | Some VNone => true
    | Some _ => false
    end = true ->
    lambda_handler rt (VDict d) w
    = (inr (error_response 400 "Request body is empty"), w).
Proof.
  intros rt d w Hev Hbody. rewrite (guarded rt d w Hev).
  unfold handle, bind, lift, method_get.
  destruct (dict_get d "body") as [body|]; [|reflexivity].
  destruct body; try discriminate. reflexivity.
Qed.

Lemma lambda_handler_absent_body_witness :
  lambda_handler (Fixtures.post_runtime Fixtures.frozen_clock)
    (VDict [("httpMethod", VStr "POST"); ("path", VStr "/orders")])
    Fixtures.fresh_table
  = (inr (error_response 400 "Request body is empty"),
     Fixtures.fresh_table).
Proof.
  apply (lambda_handler_absent_body
           (Fixtures.post_runtime Fixtures.frozen_clock)
           [("httpMethod", VStr "POST"); ("path", VStr "/orders")]
           Fixtures.fresh_table);
    reflexivity.
Defined.

(** A body that holds (or parses to) anything but a list, the JSON text
    [null] included, is answered with 400 "Request body must be a list
    of orders"; nothing is read or written. *)
Theorem lambda_handler_body_not_a_list :
  forall (rt : runtime) (d : dict) (w : world) (parsed : value),
    http_event d = true ->
    parsed_body rt d = Some parsed ->
    match parsed with VList _ => false | _ => true end = true ->
    lambda_handler rt (VDict d) w
    = (inr (error_response 400 "Request body must be a list of orders"), w).
Proof.
  intros rt d w parsed Hev Hbody Hshape. rewrite (guarded rt d w Hev).
  unfold parsed_body in Hbody. unfold handle, bind, lift, method_get.
  destruct (dict_get d "body") as [body|]; [|discriminate].
  destruct body; try discriminate;
    try (injection Hbody as <-; reflexivity).
  - destruct (json_loads rt s) as [e|v]; [discriminate|].
    injection Hbody as ->. destruct parsed; try discriminate; reflexivity.
  - injection Hbody as <-. discriminate.
Qed.

Lemma lambda_handler_body_not_a_list_witness :
  lambda_handler (Fixtures.post_runtime Fixtures.frozen_clock)
    (VDict (Fixtures.api_event (VStr "null"))) Fixtures.fresh_table
  = (inr (error_response 400 "Request body must be a list of orders"),
     Fixtures.fresh_table).
Proof.
  apply (lambda_handler_body_not_a_list
           (Fixtures.post_runtime Fixtures.frozen_clock)
           (Fixtures.api_event (VStr "null")) Fixtures.fresh_table VNone);
    reflexivity.
Defined.

(** Whatever text the decoder refuses is answered with 400 "Invalid
    JSON: <detail>" when the decoder raised [JSONDecodeError], and with
    500 "Internal server error: <detail>" when it raised anything else;
    nothing is read or written. *)
Theorem lambda_handler_undecodable_body :
  forall (rt : runtime) (d : dict) (w : world) (text : string) (e : exn),
    http_event d = true ->
    dict_get d "body" = Some (VStr text) ->
    json_loads rt text = inl e ->
    lambda_handler rt (VDict d) w
    = (inr (if isinstance e JSONDecodeError
            then error_response 400 ("Invalid JSON: " ++ exn_msg e)
            else error_response 500 ("Internal server error: " ++ exn_msg e)),
       w).
Proof.
  intros rt d w text e Hev Hbody Hloads. rewrite (guarded rt d w Hev).
  unfold handle, bind, lift, method_get. rewrite Hbody, Hloads. reflexivity.
Qed.

Lemma lambda_handler_undecodable_body_witness :
  lambda_handler (Fixtures.post_runtime Fixtures.frozen_clock)
    (VDict (Fixtures.api_event (VStr "not valid json")))
    Fixtures.fresh_table
  = (inr (if isinstance
               (Exn JSONDecodeError
                  "Expecting value: line 1 column 1 (char 0)")
               JSONDecodeError
          then error_response 400
                 ("Invalid JSON: "
                  ++ "Expecting value: line 1 column 1 (char 0)")
          else error_response 500
                 ("Internal server error: "
                  ++ "Expecting value: line 1 column 1 (char 0)")),
     Fixtures.fresh_table).
Proof.
  apply (lambda_handler_undecodable_body
           (Fixtures.post_runtime Fixtures.frozen_clock)
           (Fixtures.api_event (VStr "not valid json")) Fixtures.fresh_table
           "not valid json"
           (Exn JSONDecodeError "Expecting value: line 1 column 1 (char 0)"));
    reflexivity.
Defined.

(** What the guarded region returns by itself is a 201 or a 400. *)
Lemma handle_returns (rt : runtime) (event : value) (w w' : world)
    (resp : response) :
  handle rt event w = (inr resp, w') ->
  exists doc, resp = respond 201 doc \/ resp = respond 400 doc.
Proof.
  unfold handle, bind, lift, ret, error_response. intros H.
  repeat match type of H with
         | context [match ?x with _ => _ end] => destruct x; try discriminate
         end;
    injection H as <- _; eauto.
Qed.

(** For an event that has [httpMethod] and [path] the handler never
    raises: it returns a response whose status is 201, 400 or 500,
    marked as JSON and as not base64-encoded. *)
Theorem lambda_handler_always_responds :
  forall (rt : runtime) (d : dict) (w : world),
    http_event d = true ->
    exists resp,
      fst (lambda_handler rt (VDict d) w) = inr resp
      /\ (statusCode resp = 201 \/ statusCode resp = 400
          \/ statusCode resp = 500)
      /\ headers resp = [("Content-Type", VStr "application/json")]
      /\ isBase64Encoded resp = false.
Proof.
  intros rt d w Hev. rewrite (guarded rt d w Hev).
  destruct (handle rt (VDict d) w) as [[e|resp] w'] eqn:Hhandle.
  - destruct (isinstance e JSONDecodeError); eexists; simpl;
      (split; [reflexivity|]); auto.
  - destruct (handle_returns rt _ w w' resp Hhandle) as [doc [-> | ->]];
      eexists; simpl; (split; [reflexivity|]); auto.
Qed.

Lemma lambda_handler_always_responds_witness :
  exists resp,
    fst (lambda_handler (Fixtures.failing_post_runtime Fixtures.frozen_clock)
           (VDict (Fixtures.api_event (VList [VDict [("record_id", VInt 1)]])))
           Fixtures.fresh_table) = inr resp
    /\ (statusCode resp = 201 \/ statusCode resp = 400
        \/ statusCode resp = 500)
    /\ headers resp = [("Content-Type", VStr "application/json")]
    /\ isBase64Encoded resp = false.
Proof.
  apply (lambda_handler_always_responds
           (Fixtures.failing_post_runtime Fixtures.frozen_clock)
           (Fixtures.api_event (VList [VDict [("record_id", VInt 1)]]))
           Fixtures.fresh_table).
  reflexivity.
Defined.

(** ** Failures after validation *)

Local Open Scope list_scope.

(** Only [in] can raise during validation, and what it raises is a
    [TypeError]. *)
Lemma all_have_record_id_raises (orders : list value) (e : exn) :
  all_have_record_id orders = inl e -> exn_cls e = TypeError.
Proof.
  induction orders as [|order rest IH]; simpl; [discriminate|].
  destruct (contains order "record_id") as [e'|[|]] eqn:Hc;
    [|exact IH|discriminate].
  intros H. injection H as <-.
  destruct order; simpl in Hc; try discriminate; injection Hc as <-;
    reflexivity.
Qed.

Lemma TypeError_is_not_decode (e : exn) :
  exn_cls e = TypeError -> isinstance e JSONDecodeError = false.
Proof. destruct e as [c msg]. simpl. intros ->. reflexivity. Qed.

(** When the table's [batch_writer()] raises, no item is put; the
    exception's text comes back in a 500 response (in a 400 "Invalid
    JSON" one, should the exception be a [JSONDecodeError]). *)
Theorem lambda_handler_table_unavailable :
  forall (rt : runtime) (d : dict) (w : world) (orders : list value)
         (e : exn),
    http_event d = true ->
    parsed_body rt d = Some (VList orders) ->
    all_have_record_id orders = inr true ->
    batch_writer_fault rt = Some e ->
    lambda_handler rt (VDict d) w
    = (inr (if isinstance e JSONDecodeError
            then error_response 400 ("Invalid JSON: " ++ exn_msg e)%string
            else error_response 500
                   ("Internal server error: " ++ exn_msg e)%string),
       World (S (clock_reads w)) (table_calls w ++ [BatchWriter])).
Proof.
  intros rt d w orders e Hev Hbody Hall Hfault.
  rewrite (guarded rt d w Hev).
  rewrite (PostLambdaSpec.handle_parsed_list rt d w orders Hbody).
  unfold bind, lift. rewrite Hall.
  unfold save_to_db, try_except, bind, time_now, with_batch_writer, raise.
  rewrite Hfault. reflexivity.
Qed.

Lemma lambda_handler_table_unavailable_witness :
  lambda_handler (Fixtures.failing_post_runtime Fixtures.frozen_clock)
    (VDict (Fixtures.api_event (VList [VDict [("record_id", VInt 1)]])))
    Fixtures.fresh_table
  = (inr (if isinstance (Exn Exception "DynamoDB error") JSONDecodeError
          then error_response 400
                 ("Invalid JSON: "
                  ++ exn_msg (Exn Exception "DynamoDB error"))%string
          else error_response 500
                 ("Internal server error: "
                  ++ exn_msg (Exn Exception "DynamoDB error"))%string),
     World (S (clock_reads Fixtures.fresh_table))
       (table_calls Fixtures.fresh_table ++ [BatchWriter])).
Proof.
  apply (lambda_handler_table_unavailable
           (Fixtures.failing_post_runtime Fixtures.frozen_clock)
           (Fixtures.api_event (VList [VDict [("record_id", VInt 1)]]))
           Fixtures.fresh_table [VDict [("record_id", VInt 1)]]
           (Exn Exception "DynamoDB error"));
    reflexivity.
Defined.

(** An element on which [in] is not defined (a number, a boolean,
    [None]) that comes before any record lacking [record_id] turns the
    request into a 500 response, with nothing read or written. *)
Theorem lambda_handler_element_not_iterable :
  forall (rt : runtime) (d : dict) (w : world)
         (good rest : list value) (bad : value),
    http_event d = true ->
    parsed_body rt d = Some (VList (good ++ bad :: rest)) ->
    forallb (fun o => match contains o "record_id" with
                      | inr true => true
                      | _ => false
                      end) good = true ->
    is_container bad = false ->
    lambda_handler rt (VDict d) w
    = (inr (error_response 500
              ("Internal server error: argument of type '"
               ++ type_name bad ++ "' is not iterable")%string),
       w).
Proof.
  intros rt d w good rest bad Hev Hbody Hgood Hbad.
  rewrite (guarded rt d w Hev).
  rewrite (PostLambdaSpec.handle_parsed_list rt d w _ Hbody).
  unfold bind, lift.
  assert (Hall : all_have_record_id (good ++ bad :: rest)
                 = inl (Exn TypeError
                          ("argument of type '" ++ type_name bad
                           ++ "' is not iterable")%string)).
  { clear Hbody. induction good as [|g good IH]; simpl in *.
    - destruct bad; try discriminate; reflexivity.
    - destruct (contains g "record_id") as [e|[|]]; try discriminate.
      apply IH. exact Hgood. }
  rewrite Hall. reflexivity.
Qed.

Lemma lambda_handler_element_not_iterable_witness :
  lambda_handler (Fixtures.post_runtime Fixtures.frozen_clock)
    (VDict (Fixtures.api_event
              (VList ([VDict [("record_id", VStr "order-001")]]
                      ++ VInt 5 :: [VDict [("status", VStr "pending")]]))))
    Fixtures.fresh_table
  = (inr (error_response 500
            ("Internal server error: argument of type '"
             ++ type_name (VInt 5) ++ "' is not iterable")%string),
     Fixtures.fresh_table).
Proof.
  apply (lambda_handler_element_not_iterable
           (Fixtures.post_runtime Fixtures.frozen_clock)
           (Fixtures.api_event
              (VList ([VDict [("record_id", VStr "order-001")]]
                      ++ VInt 5 :: [VDict [("status", VStr "pending")]])))
           Fixtures.fresh_table
           [VDict [("record_id", VStr "order-001")]]
           [VDict [("status", VStr "pending")]] (VInt 5));
    reflexivity.
Defined.

(** The loop stops at the first element that is not a mapping, after
    putting the records before it. *)
Lemma put_records_stops (rt : runtime) (ttl : Z) (records : list dict)
    (bad : value) (rest : list value) :
  healthy rt ->
  match bad with VDict _ => false | _ => true end = true ->
  forall w : world,
    put_records rt ttl (map VDict records ++ bad :: rest) w
    = (inl (Exn TypeError
              ("'" ++ type_name bad ++ "' object is not a mapping")%string),
       World (clock_reads w + List.length records)
             (table_calls w
              ++ map PutItem (stamped_batch rt ttl (clock_reads w) records))).
Proof.
  intros (_ & Hput & _) Hbad.
  induction records as [|record records IH]; intros w; simpl.
  - unfold bind, lift, unpack_mapping.
    rewrite Nat.add_0_r, app_nil_r.
    destruct bad; try discriminate; now destruct w.
  - unfold bind, lift, time_now, put_item. simpl. rewrite Hput.
    rewrite IH. unfold called, stamped. simpl.
    rewrite <- app_assoc. simpl. f_equal. f_equal. lia.
Qed.

(** Validation looks for [record_id] with [in], so a string or a list
    that contains it passes; the write then fails on it with a 500
    response, after the records before it have already been put: such
    a batch is written in part. *)
Theorem lambda_handler_partial_write :
  forall (rt : runtime) (d : dict) (w : world) (records : list dict)
         (bad : value) (rest : list value),
    http_event d = true ->
    parsed_body rt d = Some (VList (map VDict records ++ bad :: rest)) ->
    all_have_record_id (map VDict records ++ bad :: rest) = inr true ->
    match bad with VDict _ => false | _ => true end = true ->
    healthy rt ->
    let out := lambda_handler rt (VDict d) w in
    fst out
    = inr (error_response 500
             ("Internal server error: '" ++ type_name bad
              ++ "' object is not a mapping")%string)
    /\ puts (table_calls (snd out))
       = puts (table_calls w)
         ++ stamped_batch rt (clock rt (clock_reads w) + 86400)
              (S (clock_reads w)) records.
Proof.
  intros rt d w records bad rest Hev Hbody Hall Hbad Hrt out.
  pose proof Hrt as (Hbw & _ & Hexit).
  assert (Hout : out
    = (inr (error_response 500
              ("Internal server error: '" ++ type_name bad
               ++ "' object is not a mapping")%string),
       World (S (clock_reads w) + List.length records)
             (table_calls w
              ++ BatchWriter
                 :: map PutItem
                      (stamped_batch rt (clock rt (clock_reads w) + 86400)
                         (S (clock_reads w)) records)
                 ++ [BatchExit]))).
  { unfold out. rewrite (guarded rt d w Hev).
    rewrite (PostLambdaSpec.handle_parsed_list rt d w _ Hbody).
    unfold bind at 1. unfold lift at 1. rewrite Hall.
    unfold bind, save_to_db, try_except, bind, time_now, with_batch_writer,
      raise.
    rewrite Hbw. rewrite (put_records_stops rt _ records bad rest Hrt Hbad).
    rewrite Hexit. unfold called. simpl.
    repeat rewrite <- app_assoc. reflexivity. }
  rewrite Hout. simpl. split; [reflexivity|].
  rewrite !PostLambdaSpec.puts_app. simpl.
  rewrite PostLambdaSpec.puts_app, PostLambdaSpec.puts_map_PutItem.
  simpl. now rewrite app_nil_r.
Qed.

Lemma lambda_handler_partial_write_witness :
  let rt := Fixtures.post_runtime Fixtures.frozen_clock in
  let out :=
    lambda_handler rt
      (VDict (Fixtures.api_event
                (VList (map VDict [[("record_id", VStr "order-001")]]
                        ++ VStr "see record_id 7" :: []))))
      Fixtures.fresh_table in
  fst out
  = inr (error_response 500
           ("Internal server error: '" ++ type_name (VStr "see record_id 7")
            ++ "' object is not a mapping")%string)
  /\ puts (table_calls (snd out))
     = puts (table_calls Fixtures.fresh_table)
       ++ stamped_batch rt
            (clock rt (clock_reads Fixtures.fresh_table) + 86400)
            (S (clock_reads Fixtures.fresh_table))
            [[("record_id", VStr "order-001")]].
Proof.
  cbv zeta.
  apply (lambda_handler_partial_write
           (Fixtures.post_runtime Fixtures.frozen_clock)
           (Fixtures.api_event
              (VList (map VDict [[("record_id", VStr "order-001")]]
                      ++ VStr "see record_id 7" :: [])))
           Fixtures.fresh_table
           [[("record_id", VStr "order-001")]]
           (VStr "see record_id 7") []).
  - reflexivity.
  - reflexivity.
  - reflexivity.
  - reflexivity.
  - repeat split; intros; reflexivity.
Defined.

(** ** The two clock readings *)

(** The whole run of the handler on a valid batch and a healthy table. *)
Lemma healthy_run (rt : runtime) (d : dict) (w : world)
    (records : list dict) :
  http_event d = true ->
  parsed_body rt d = Some (VList (map VDict records)) ->
  forallb has_record_id records = true ->
  healthy rt ->
  lambda_handler rt (VDict d) w
  = (inr (created_response (List.length records)),
     World (S (clock_reads w) + List.length records)
           (table_calls w
            ++ BatchWriter
               :: map PutItem
                    (stamped_batch rt (clock rt (clock_reads w) + 86400)
                       (S (clock_reads w)) records)
               ++ [BatchExit])).
Proof.
  intros Hev Hbody Hids Hrt. rewrite (guarded rt d w Hev).
  rewrite (PostLambdaSpec.handle_parsed_list rt d w _ Hbody).
  unfold bind at 1. unfold lift at 1.
  rewrite (PostLambdaSpec.all_have_record_id_records records Hids).
  unfold bind. rewrite (PostLambdaSpec.save_to_db_healthy rt records w Hrt).
  unfold ret. rewrite length_map. reflexivity.
Qed.

Lemma puts_of_run (before : list table_call) (items : list value) :
  puts (before ++ BatchWriter :: map PutItem items ++ [BatchExit])
  = puts before ++ items.
Proof.
  rewrite PostLambdaSpec.puts_app. simpl.
  rewrite PostLambdaSpec.puts_app, PostLambdaSpec.puts_map_PutItem.
  simpl. now rewrite app_nil_r.
Qed.

(** When the clock shows the same second [t] throughout the
    invocation, every item of an accepted batch has [ttl = t + 86400]
    and [created_at = t]. *)
Theorem lambda_handler_one_write_time :
  forall (rt : runtime) (d : dict) (w : world) (records : list dict)
         (t : Z),
    http_event d = true ->
    parsed_body rt d = Some (VList (map VDict records)) ->
    forallb has_record_id records = true ->
    healthy rt ->
    (forall k, clock rt k = t) ->
    puts (table_calls (snd (lambda_handler rt (VDict d) w)))
    = puts (table_calls w)
      ++ map (fun record => stamped rt record (t + 86400) t) records.
Proof.
  intros rt d w records t Hev Hbody Hids Hrt Hclock.
  rewrite (healthy_run rt d w records Hev Hbody Hids Hrt). simpl.
  rewrite puts_of_run. f_equal. rewrite Hclock.
  clear Hbody Hids. generalize (S (clock_reads w)) as k.
  induction records as [|r rest IH]; intros k; simpl; [reflexivity|].
  now rewrite Hclock, IH.
Qed.

Lemma lambda_handler_one_write_time_witness :
  let rt := Fixtures.post_runtime Fixtures.frozen_clock in
  let records :=
    [[("record_id", VStr "order-001")]; [("record_id", VStr "order-002")]] in
  puts (table_calls
          (snd (lambda_handler rt
                  (VDict (Fixtures.api_event (VList (map VDict records))))
                  Fixtures.fresh_table)))
  = puts (table_calls Fixtures.fresh_table)
    ++ map (fun record => stamped rt record (1700000000 + 86400) 1700000000)
         records.
Proof.
  cbv zeta.
  apply (lambda_handler_one_write_time
           (Fixtures.post_runtime Fixtures.frozen_clock)
           (Fixtures.api_event
              (VList (map VDict [[("record_id", VStr "order-001")];
                                 [("record_id", VStr "order-002")]])))
           Fixtures.fresh_table
           [[("record_id", VStr "order-001")];
            [("record_id", VStr "order-002")]]
           1700000000).
  - reflexivity.
  - reflexivity.
  - reflexivity.
  - repeat split; intros; reflexivity.
  - intros k. reflexivity.
Defined.

Lemma stamped_system_fields (rt : runtime) (record : dict)
    (ttl created_at : Z) :
  subscript (stamped rt record ttl created_at) "ttl" = inr (VInt ttl)
  /\ subscript (stamped rt record ttl created_at) "created_at"
     = inr (VInt created_at).
Proof.
  unfold stamped. simpl. rewrite !dict_get_map.
  rewrite dict_get_set_other by reflexivity.
  rewrite !dict_get_set_same. split; reflexivity.
Qed.

(** When the clock never goes back, no item of an accepted batch
    expires later than 24 hours after its own [created_at]. *)
Theorem lambda_handler_expiry_within_a_day :
  forall (rt : runtime) (d : dict) (w : world) (records : list dict),
    http_event d = true ->
    parsed_body rt d = Some (VList (map VDict records)) ->
    forallb has_record_id records = true ->
    healthy rt ->
    (forall a b : nat, (a <= b)%nat -> clock rt a <= clock rt b) ->
    exists items,
      puts (table_calls (snd (lambda_handler rt (VDict d) w)))
      = puts (table_calls w) ++ items
      /\ List.length items = List.length records
      /\ Forall (fun item =>
                   exists ttl created_at,
                     subscript item "ttl" = inr (VInt ttl)
                     /\ subscript item "created_at" = inr (VInt created_at)
                     /\ ttl <= created_at + 86400) items.
Proof.
  intros rt d w records Hev Hbody Hids Hrt Hmono.
  rewrite (healthy_run rt d w records Hev Hbody Hids Hrt). simpl.
  rewrite puts_of_run. eexists. split; [reflexivity|].
  assert (Hfrom : forall k, (clock_reads w <= k)%nat ->
    List.length
      (stamped_batch rt (clock rt (clock_reads w) + 86400) k records)
    = List.length records
    /\ Forall (fun item =>
                 exists ttl created_at,
                   subscript item "ttl" = inr (VInt ttl)
                   /\ subscript item "created_at" = inr (VInt created_at)
                   /\ ttl <= created_at + 86400)
         (stamped_batch rt (clock rt (clock_reads w) + 86400) k records)).
  { clear Hbody Hids. induction records as [|r rest IH]; intros k Hk; simpl.
    - split; [reflexivity | constructor].
    - destruct (IH (S k)) as [Hlen Hall]; [lia|].
      split; [now rewrite Hlen|]. constructor; [|exact Hall].
      destruct (stamped_system_fields rt r
                  (clock rt (clock_reads w) + 86400) (clock rt k))
        as [Httl Hcreated].
      exists (clock rt (clock_reads w) + 86400), (clock rt k).
      split; [exact Httl|]. split; [exact Hcreated|].
      specialize (Hmono (clock_reads w) k Hk). lia. }
  apply Hfrom. lia.
Qed.

Lemma lambda_handler_expiry_within_a_day_witness :
  let rt := Fixtures.post_runtime Fixtures.ticking_clock in
  let records :=
    [[("record_id", VStr "order-001")]; [("record_id", VStr "order-002")]] in
  exists items,
    puts (table_calls
            (snd (lambda_handler rt
                    (VDict (Fixtures.api_event (VList (map VDict records))))
                    Fixtures.fresh_table)))
    = puts (table_calls Fixtures.fresh_table) ++ items
    /\ List.length items = List.length records
    /\ Forall (fun item =>
                 exists ttl created_at,
                   subscript item "ttl" = inr (VInt ttl)
                   /\ subscript item "created_at" = inr (VInt created_at)
                   /\ ttl <= created_at + 86400) items.
Proof.
  cbv zeta.
  apply (lambda_handler_expiry_within_a_day
           (Fixtures.post_runtime Fixtures.ticking_clock)
           (Fixtures.api_event
              (VList (map VDict [[("record_id", VStr "order-001")];
                                 [("record_id", VStr "order-002")]])))
           Fixtures.fresh_table
           [[("record_id", VStr "order-001")];
            [("record_id", VStr "order-002")]]).
  - reflexivity.
  - reflexivity.
  - reflexivity.
  - repeat split; intros; reflexivity.
  - intros a b Hab. unfold Fixtures.post_runtime, Fixtures.ticking_clock.
    cbn [clock]. lia.
Defined.

(** ** A 400 response means nothing was done *)

(** With a healthy table only the unpacking of a record can make the
    loop raise, and what it raises is a [TypeError]. *)
Lemma put_records_healthy_raises (rt : runtime) (ttl : Z)
    (orders : list value) :
  healthy rt ->
  forall (w w' : world) (e : exn),
    put_records rt ttl orders w = (inl e, w') -> exn_cls e = TypeError.
Proof.
  intros (_ & Hput & _).
  induction orders as [|order rest IH]; intros w w' e H; simpl in H.
  - discriminate.
  - unfold bind, lift, unpack_mapping in H.
    destruct order; try (injection H as <- _; reflexivity).
    unfold time_now, put_item in H. simpl in H. rewrite Hput in H.
    exact (IH _ _ _ H).
Qed.

Lemma save_to_db_healthy_raises (rt : runtime) (orders : list value)
    (w w' : world) (e : exn) :
  healthy rt ->
  save_to_db rt orders w = (inl e, w') -> exn_cls e = TypeError.
Proof.
  intros Hrt H. pose proof Hrt as (Hbw & _ & Hexit).
  unfold save_to_db, try_except, bind, time_now, with_batch_writer,
    raise in H.
  rewrite Hbw in H.
  match type of H with
  | context [put_records rt ?t orders ?w1] =>
      destruct (put_records rt t orders w1) as [[e'|[]] w3] eqn:Hloop
  end; rewrite Hexit in H; [|discriminate].
  injection H as <- _.
  exact (put_records_healthy_raises rt _ orders Hrt _ _ _ Hloop).
Qed.

(** Unless the body parses to a list, the guarded region leaves the
    world as it found it. *)
Lemma handle_stops_before_list (rt : runtime) (d : dict) (w : world) :
  (forall orders, parsed_body rt d <> Some (VList orders)) ->
  snd (handle rt (VDict d) w) = w.
Proof.
  unfold parsed_body, handle, bind, lift, method_get. intros Hno.
  destruct (dict_get d "body") as [body|]; [|reflexivity].
  destruct body; try reflexivity.
  - destruct (json_loads rt s) as [e|v]; [reflexivity|].
    destruct v; try reflexivity. now contradiction (Hno items).
  - now contradiction (Hno items).
Qed.

(** With a table that takes its calls, a 400 response means that the
    request was turned down before anything happened: the clock was
    not read and the table was not called. *)
Theorem bad_request_touches_nothing :
  forall (rt : runtime) (d : dict) (w w' : world) (resp : response),
    healthy rt ->
    http_event d = true ->
    lambda_handler rt (VDict d) w = (inr resp, w') ->
    statusCode resp = 400 ->
    w' = w.
Proof.
  intros rt d w w' resp Hrt Hev H Hstatus.
  rewrite (guarded rt d w Hev) in H.
  assert (Hstops : snd (handle rt (VDict d) w) = w -> w' = w).
  { revert H. destruct (handle rt (VDict d) w) as [[e|r] w1];
      intros H Hw; cbv beta iota in H; injection H as H1 H2;
      rewrite <- H2; exact Hw. }
  destruct (parsed_body rt d) as [parsed|] eqn:Hbody;
    [|apply Hstops, handle_stops_before_list; intros orders;
      rewrite Hbody; discriminate].
  destruct parsed as [| | | | | |orders|];
    try (apply Hstops, handle_stops_before_list; intros orders';
         rewrite Hbody; discriminate).
  clear Hstops.
  rewrite (PostLambdaSpec.handle_parsed_list rt d w orders Hbody) in H.
  unfold bind, lift in H.
  destruct (all_have_record_id orders) as [e|[|]] eqn:Hall.
  - apply all_have_record_id_raises in Hall.
    rewrite (TypeError_is_not_decode e Hall) in H.
    injection H as <- _. discriminate.
  - destruct (save_to_db rt orders w) as [[e|u] w1] eqn:Hsave.
    + apply (save_to_db_healthy_raises rt orders w w1 e Hrt) in Hsave.
      rewrite (TypeError_is_not_decode e Hsave) in H.
      injection H as <- _. discriminate.
    + unfold ret in H. injection H as <- _. discriminate.
  - unfold ret in H. injection H as _ <-. reflexivity.
Qed.

Lemma bad_request_touches_nothing_witness :
  snd (lambda_handler (Fixtures.post_runtime Fixtures.ticking_clock)
         (VDict (Fixtures.api_event
                   (VList [VDict [("record_id", VStr "order-001")];
                           VDict [("status", VStr "pending")]])))
         Fixtures.fresh_table)
  = Fixtures.fresh_table.
Proof.
  apply (bad_request_touches_nothing
           (Fixtures.post_runtime Fixtures.ticking_clock)
           (Fixtures.api_event
              (VList [VDict [("record_id", VStr "order-001")];
                      VDict [("status", VStr "pending")]]))
           Fixtures.fresh_table
           (snd (lambda_handler (Fixtures.post_runtime Fixtures.ticking_clock)
                   (VDict (Fixtures.api_event
                             (VList [VDict [("record_id", VStr "order-001")];
                                     VDict [("status", VStr "pending")]])))
                   Fixtures.fresh_table))
           (error_response 400 "Each order must have a 'record_id' field")).
  - repeat split; intros; reflexivity.
  - reflexivity.
  - reflexivity.
  - reflexivity.
Defined.

(** ** Accepted batches *)

Lemma accepted_batch_was_stamped_witness :
  let rt := Fixtures.post_runtime Fixtures.ticking_clock in
  let d :=
    Fixtures.api_event
      (VList [VDict [("record_id", VStr "order-001");
                     ("price", VFloat Fixtures.float_50_25)]]) in
  exists records : list dict,
    parsed_body rt d = Some (VList (map VDict records))
    /\ forallb has_record_id records = true
    /\ created_response 1 = created_response (List.length records)
    /\ puts (table_calls
               (snd (lambda_handler rt (VDict d) Fixtures.fresh_table)))
       = puts (table_calls Fixtures.fresh_table)
         ++ stamped_batch rt
              (clock rt (clock_reads Fixtures.fresh_table) + 86400)
              (S (clock_reads Fixtures.fresh_table)) records.
Proof.
  cbv zeta.
  apply (PostLambdaSpec.accepted_batch_was_stamped
           (Fixtures.post_runtime Fixtures.ticking_clock)
           (Fixtures.api_event
              (VList [VDict [("record_id", VStr "order-001");
                             ("price", VFloat Fixtures.float_50_25)]]))
           Fixtures.fresh_table (created_response 1));
    reflexivity.
Defined.

End PostLambdaMore.
